(** * MapAlert: the proximity alert engine of the Home screen

    The repository holds two variants of the Home screen component:

    - [src/Home.js]: a one-shot position fix, a tapped destination
      ([mcoords]) next to a searched one ([scoords]), and an alert that has
      no memory;
    - [src/unnamed/part_001]: a single [destination], a tracking mode that
      streams positions, and the [hasAlerted] flag with its 2 km / 2.5 km
      hysteresis band.

    Both share [calculateDistance].  JavaScript numbers are IEEE-754
    binary64 values, modelled by Rocq's primitive floats, whose [+ - * /],
    comparisons and square root are the correctly rounded operations a
    JavaScript engine runs.  [Math.cos] and [Math.asin] are
    implementation-approximated (ECMA-262, 21.3.2), so they enter as a
    parameter, the [MathObject]; what a theorem needs of them is one of its
    hypotheses; [smallAngle] is a [Math] to run examples with.  The
    expression is written once, over any arithmetic ([Formula]): the code
    is its value in binary64, and its value over the real numbers is set
    against the haversine formula ([Exact]).  React state is a record, a
    handler or an effect is a function from the rendered state to the next
    state and the list of side effects it requested, in order; what the
    component returns is a [View], with the events its handlers are wired
    to. *)

From Stdlib Require Import ZArith List String Bool Lia.
From Stdlib Require Import Floats Reals Lra.
Import ListNotations.
Set Warnings "-inexact-float".

(** ** JavaScript values *)

Module JS.

Definition number := float.
Bind Scope float_scope with number.

Inductive Exception := TypeError.

(** The completion of an evaluation: a value, or a thrown exception. *)
Inductive Completion (A : Type) :=
| Normal (a : A)
| Throw (e : Exception).
Arguments Normal {A} a.
Arguments Throw {A} e.

Definition bind {A B : Type} (c : Completion A) (k : A -> Completion B) : Completion B :=
  match c with
  | Normal a => k a
  | Throw e => Throw e
  end.

(** [o.f] on a value that may be [null] or [undefined]: reading a property
    of either throws a TypeError. *)
Definition prop {O A : Type} (f : O -> A) (o : option O) : Completion A :=
  match o with
  | Some x => Normal (f x)
  | None => Throw TypeError
  end.

(** An object is truthy, [null] and [undefined] are falsy. *)
Definition truthy {O : Type} (o : option O) : bool :=
  match o with
  | Some _ => true
  | None => false
  end.

(** The two functions of [Math] the screen calls whose results the
    language leaves to the implementation. *)
Record MathObject := {
  Math_cos : number -> number;
  Math_asin : number -> number
}.

(** [Math.sqrt] is the correctly rounded square root. *)
Definition Math_sqrt (x : number) : number := PrimFloat.sqrt x.

(** [x <= y] and [x > y] on numbers: both are false when an operand is NaN. *)
Definition le (x y : number) : bool := (x <=? y)%float.
Definition gt (x y : number) : bool := (y <? x)%float.


(** A string is its sequence of UTF-16 code units. *)
Definition jsstring := list N.

(** WhiteSpace and LineTerminator code points (ECMA-262, 12.2 and 12.3):
    what [String.prototype.trim] strips. *)
Definition isWhiteSpace (c : N) : bool :=
  ((9 <=? c) && (c <=? 13) || (c =? 32) || (c =? 160) || (c =? 5760)
   || (8192 <=? c) && (c <=? 8202) || (c =? 8232) || (c =? 8233)
   || (c =? 8239) || (c =? 8287) || (c =? 12288) || (c =? 65279))%N.

Fixpoint trimStart (s : jsstring) : jsstring :=
  match s with
  | [] => []
  | c :: s' => if isWhiteSpace c then trimStart s' else s
  end.

Definition trimEnd (s : jsstring) : jsstring := rev (trimStart (rev s)).

Definition trim (s : jsstring) : jsstring := trimEnd (trimStart s).

(** A string is truthy unless it is empty. *)
Definition truthy_string (s : jsstring) : bool :=
  match s with
  | [] => false
  | _ :: _ => true
  end.

End JS.

Import JS.

Notation "x <- c ;; k" := (bind c (fun x => k))
  (at level 61, c at next level, right associativity).

(** ** Coordinates and the distance function *)

Record Coordinate := {
  latitude : number;
  longitude : number
}.

(** [calculateDistance] ([src/Home.js] 42-54, [part_001] 141-154; the two
    texts parse to the same expression). *)
Definition calculateDistance (M : MathObject) (c1 c2 : option Coordinate)
  : Completion number :=
  lat1 <- prop latitude c1 ;;
  lon1 <- prop longitude c1 ;;
  lat2 <- prop latitude c2 ;;
  lon2 <- prop longitude c2 ;;
  let p := 0.017453292519943295%float in
  let c := Math_cos M in
  let a := (0.5 - c ((lat2 - lat1) * p) / 2 +
            c (lat1 * p) * c (lat2 * p) *
            (1 - c ((lon2 - lon1) * p)) / 2)%float in
  Normal (12742 * Math_asin M (Math_sqrt a))%float.

(** The value [calculateDistance] returns on two objects. *)
Definition distanceKm (M : MathObject) (c1 c2 : Coordinate) : number :=
  match calculateDistance M (Some c1) (Some c2) with
  | Normal d => d
  | Throw _ => nan
  end.

(** A [Math] that runs: the Maclaurin polynomials of cosine and arcsine,
    evaluated in binary64.  They are close to the functions for the small
    angles of nearby places, and stand in for the engine's [Math] wherever
    an example is evaluated. *)
Definition smallAngle : MathObject := {|
  Math_cos := fun x =>
    let z := (x * x)%float in
    (1 - z / 2 + z * z / 24 - z * z * z / 720)%float;
  Math_asin := fun y =>
    let z := (y * y)%float in
    (y + y * z / 6 + 3 * (y * z * z) / 40)%float
|}.

(** The object [{latitude: lat, longitude: lon}]. *)
Definition place (lat lon : number) : Coordinate :=
  {| latitude := lat; longitude := lon |}.

(** ** The distance expression, whatever the numbers *)

Module Formula.

(** The literals of the expression: [0.5], [1], [2], [12742] and
    [0.017453292519943295]. *)
Inductive Literal := Half | One | Two | Diameter | DegreeInRadians.

(** What the expression is built from. *)
Record Arithmetic (A : Type) := {
  lit : Literal -> A;
  plus : A -> A -> A;
  minus : A -> A -> A;
  times : A -> A -> A;
  over : A -> A -> A;
  cosine : A -> A;
  arcsine : A -> A;
  root : A -> A
}.

Arguments lit {A}.
Arguments plus {A}.
Arguments minus {A}.
Arguments times {A}.
Arguments over {A}.
Arguments cosine {A}.
Arguments arcsine {A}.
Arguments root {A}.

(** The argument of [Math.sqrt] in [calculateDistance]: the constant [a]
    of the source. *)
Definition sqrtArgument {A : Type} (ar : Arithmetic A) (lat1 lon1 lat2 lon2 : A) : A :=
  let p := lit ar DegreeInRadians in
  let c := cosine ar in
  plus ar
    (minus ar (lit ar Half)
       (over ar (c (times ar (minus ar lat2 lat1) p)) (lit ar Two)))
    (over ar
       (times ar (times ar (c (times ar lat1 p)) (c (times ar lat2 p)))
          (minus ar (lit ar One) (c (times ar (minus ar lon2 lon1) p))))
       (lit ar Two)).

(** The expression [calculateDistance] returns. *)
Definition distance {A : Type} (ar : Arithmetic A) (lat1 lon1 lat2 lon2 : A) : A :=
  times ar (lit ar Diameter)
    (arcsine ar (root ar (sqrtArgument ar lat1 lon1 lat2 lon2))).

(** The arithmetic of a JavaScript engine: binary64, each literal the
    nearest number, each operation correctly rounded, and the engine's
    [Math]. *)
Definition binary64 (M : MathObject) : Arithmetic number := {|
  lit := fun l =>
    match l with
    | Half => 0.5%float
    | One => 1%float
    | Two => 2%float
    | Diameter => 12742%float
    | DegreeInRadians => 0.017453292519943295%float
    end;
  plus := PrimFloat.add;
  minus := PrimFloat.sub;
  times := PrimFloat.mul;
  over := PrimFloat.div;
  cosine := Math_cos M;
  arcsine := Math_asin M;
  root := Math_sqrt
|}.

(** The arithmetic of the real numbers: each literal the decimal it
    spells, no operation rounds, and the mathematical functions. *)
Definition reals : Arithmetic R := {|
  lit := fun l =>
    match l with
    | Half => 0.5%R
    | One => 1%R
    | Two => 2%R
    | Diameter => 12742%R
    | DegreeInRadians => 0.017453292519943295%R
    end;
  plus := Rplus;
  minus := Rminus;
  times := Rmult;
  over := Rdiv;
  cosine := Rtrigo_def.cos;
  arcsine := Ratan.asin;
  root := R_sqrt.sqrt
|}.

End Formula.

(** ** The haversine distance *)

Module Exact.

(** The expression of [calculateDistance] over the real numbers. *)
Definition calculateDistance (lat1 lon1 lat2 lon2 : R) : R :=
  Formula.distance Formula.reals lat1 lon1 lat2 lon2.

(** Degrees to radians, with the factor the code uses for pi / 180. *)
Definition radians (deg : R) : R := (deg * 0.017453292519943295)%R.

(** The haversine great-circle distance on a sphere, angles in radians. *)
Definition haversine (radius phi1 lambda1 phi2 lambda2 : R) : R :=
  (2 * radius *
   asin (sqrt ((sin ((phi2 - phi1) / 2))² +
               cos phi1 * cos phi2 * (sin ((lambda2 - lambda1) / 2))²)))%R.

End Exact.

(** The real number a finite binary64 number denotes. *)
Definition toR (x : number) : R :=
  match Prim2SF x with
  | S754_finite s m e => ((if s then -1 else 1) * IZR (Zpos m) * powerRZ 2 e)%R
  | _ => 0%R
  end.

(** ** Side effects *)

Inductive Message :=
| Text (s : string)
| KmAway (dist : number).
    (* `You are ${dist.toFixed(2)} km away from your destination!` *)

Inductive Effect :=
| Vibrate (pattern : list Z)                  (* Vibration.vibrate(pattern) *)
| AlertDialog (title : string) (m : Message)  (* Alert.alert(title, m, ...) *)
| GlobalAlert (m : string)                    (* alert(m) *)
| GeocodeAsync (query : jsstring)             (* Location.geocodeAsync(query) *)
| FitToCoordinates (points : list Coordinate) (* mapRef.current.fitToCoordinates *)
| AnimateToRegion (center : Coordinate)       (* mapRef.current.animateToRegion *)
| RequestBackgroundPermissions                (* Location.requestBackgroundPermissionsAsync() *)
| WatchPositionAsync                          (* Location.watchPositionAsync(...) *)
| RemoveSubscription                          (* locationSubscription.current.remove() *)
| ConsoleError.                               (* console.error(...) *)

Definition isVibration (e : Effect) : bool :=
  match e with
  | Vibrate _ => true
  | _ => false
  end.

(** The user-visible half of a proximity alert: the "Destination Nearby"
    dialog of [part_001], the [alert(...)] of [Home.js]. *)
Definition isProximityMessage (e : Effect) : bool :=
  match e with
  | AlertDialog _ (KmAway _) => true
  | GlobalAlert _ => true
  | _ => false
  end.

Definition isGeocodeCall (e : Effect) : bool :=
  match e with
  | GeocodeAsync _ => true
  | _ => false
  end.

Definition vibrations (out : list Effect) : nat := List.length (filter isVibration out).
Definition proximityMessages (out : list Effect) : nat :=
  List.length (filter isProximityMessage out).
Definition geocodeCalls (out : list Effect) : nat := List.length (filter isGeocodeCall out).

(** ** What the collaborators answer *)

(** The mount effect's position request: permission refused, a fix, or a
    rejected [getCurrentPositionAsync]. *)
Inductive PositionOutcome :=
| PermissionDenied
| Fix (coords : Coordinate)
| PositionUnavailable.

(** [Location.geocodeAsync]: the promise fulfils with an array or rejects. *)
Inductive GeocodeResult :=
| Fulfilled (results : list Coordinate)
| Rejected.

(** [startLocationTracking]: background permission refused, a thrown error,
    or a running subscription. *)
Inductive TrackingOutcome :=
| BackgroundDenied
| WatchFailed
| Watching.

(** ** The snapshot screen ([src/Home.js]) *)

Module Home.

Record State := {
  location : option Coordinate;
  mcoords : option Coordinate;
  scoords : option Coordinate;
  errorMsg : option string;
  searchtext : jsstring
}.

(** The [useState] initial values (lines 8-12). *)
Definition initialState : State := {|
  location := None;
  mcoords := None;
  scoords := None;
  errorMsg := None;
  searchtext := []
|}.

Definition setLocation (v : option Coordinate) (st : State) : State :=
  {| location := v; mcoords := mcoords st; scoords := scoords st;
     errorMsg := errorMsg st; searchtext := searchtext st |}.

Definition setMcoords (v : option Coordinate) (st : State) : State :=
  {| location := location st; mcoords := v; scoords := scoords st;
     errorMsg := errorMsg st; searchtext := searchtext st |}.

Definition setScoords (v : option Coordinate) (st : State) : State :=
  {| location := location st; mcoords := mcoords st; scoords := v;
     errorMsg := errorMsg st; searchtext := searchtext st |}.

Definition setErrorMsg (v : option string) (st : State) : State :=
  {| location := location st; mcoords := mcoords st; scoords := scoords st;
     errorMsg := v; searchtext := searchtext st |}.

Definition setSearchtext (v : jsstring) (st : State) : State :=
  {| location := location st; mcoords := mcoords st; scoords := scoords st;
     errorMsg := errorMsg st; searchtext := v |}.

(** The mount effect (lines 13-23): one permission request, one fix. *)
Definition useEffect_mount (o : PositionOutcome) (st : State) : State :=
  match o with
  | PermissionDenied =>
      setErrorMsg (Some "Permission to access location was denied"%string) st
  | Fix coords => setLocation (Some coords) st
  | PositionUnavailable => st
  end.

(** The distance effect (lines 24-35), run after a render in which
    [location] or [mcoords] changed.  The guard tests [location] and
    [mcoords]; [scoords] is passed on as it is. *)
Definition useEffect_distance (M : MathObject) (st : State) : Completion (list Effect) :=
  if truthy (location st) && truthy (mcoords st) then
    distance <- calculateDistance M (location st) (mcoords st) ;;
    distance2 <- calculateDistance M (location st) (scoords st) ;;
    if le distance 2%float || le distance2 2%float then
      Normal [Vibrate [1000; 500; 1000]%Z;
              GlobalAlert "Da Mandaaaa, STHALAM EHTARAYI!!!!!"]
    else Normal []
  else Normal [].

(** [handlecord] (lines 36-38): a tap on the map. *)
Definition handlecord (coordinate : Coordinate) (st : State) : State :=
  setMcoords (Some coordinate) st.

(** [handleSearch] (lines 39-41): the text box changed. *)
Definition handleSearch (text : jsstring) (st : State) : State :=
  setSearchtext text st.

(** [geocode] (lines 55-58): the Search button.  The text goes to the
    provider as it is; [geocode[0]], undefined for an empty array, becomes
    [scoords]; a rejection is not caught. *)
Definition geocode (r : GeocodeResult) (st : State) : State * list Effect :=
  match r with
  | Fulfilled results =>
      (setScoords (hd_error results) st, [GeocodeAsync (searchtext st)])
  | Rejected => (st, [GeocodeAsync (searchtext st)])
  end.

Inductive Event :=
| Mount (o : PositionOutcome)
| MapPress (coordinate : Coordinate)
| ChangeText (text : jsstring)
| PressSearch (r : GeocodeResult).

(** One event: the handler, then the effects whose dependencies
    ([location], [mcoords]) the handler replaced.  Every [setLocation] and
    [setMcoords] of the file passes a fresh object, so the dependency
    changes whenever the setter runs. *)
Definition step (M : MathObject) (ev : Event) (st : State)
  : Completion (State * list Effect) :=
  match ev with
  | Mount (Fix coords) =>
      let st' := useEffect_mount (Fix coords) st in
      out <- useEffect_distance M st' ;;
      Normal (st', out)
  | Mount o => Normal (useEffect_mount o st, [])
  | MapPress coordinate =>
      let st' := handlecord coordinate st in
      out <- useEffect_distance M st' ;;
      Normal (st', out)
  | ChangeText text => Normal (handleSearch text st, [])
  | PressSearch r => Normal (geocode r st)
  end.

(** A session: the effects of all events, or the first uncaught exception. *)
Fixpoint run (M : MathObject) (evs : list Event) (st : State)
  : Completion (State * list Effect) :=
  match evs with
  | [] => Normal (st, [])
  | ev :: evs' =>
      r <- step M ev st ;;
      r' <- run M evs' (fst r) ;;
      Normal (fst r', snd r ++ snd r')
  end.

End Home.

(** ** The tracking screen ([src/unnamed/part_001]) *)

Module HomeTracking.

Record State := {
  location : option Coordinate;
  destination : option Coordinate;
  errorMsg : option string;
  searchText : jsstring;
  isLoading : bool;
  distance : option number;
  isTracking : bool;
  hasAlerted : bool;
  locationSubscription : bool   (* locationSubscription.current is not null *)
}.

(** The [useState] and [useRef] initial values (lines 20-31). *)
Definition initialState : State := {|
  location := None;
  destination := None;
  errorMsg := None;
  searchText := [];
  isLoading := false;
  distance := None;
  isTracking := false;
  hasAlerted := false;
  locationSubscription := false
|}.

Definition setLocation (v : option Coordinate) (st : State) : State :=
  {| location := v; destination := destination st; errorMsg := errorMsg st;
     searchText := searchText st; isLoading := isLoading st;
     distance := distance st; isTracking := isTracking st;
     hasAlerted := hasAlerted st;
     locationSubscription := locationSubscription st |}.

Definition setDestination (v : option Coordinate) (st : State) : State :=
  {| location := location st; destination := v; errorMsg := errorMsg st;
     searchText := searchText st; isLoading := isLoading st;
     distance := distance st; isTracking := isTracking st;
     hasAlerted := hasAlerted st;
     locationSubscription := locationSubscription st |}.

Definition setErrorMsg (v : option string) (st : State) : State :=
  {| location := location st; destination := destination st; errorMsg := v;
     searchText := searchText st; isLoading := isLoading st;
     distance := distance st; isTracking := isTracking st;
     hasAlerted := hasAlerted st;
     locationSubscription := locationSubscription st |}.

Definition setSearchText (v : jsstring) (st : State) : State :=
  {| location := location st; destination := destination st;
     errorMsg := errorMsg st; searchText := v; isLoading := isLoading st;
     distance := distance st; isTracking := isTracking st;
     hasAlerted := hasAlerted st;
     locationSubscription := locationSubscription st |}.

Definition setIsLoading (v : bool) (st : State) : State :=
  {| location := location st; destination := destination st;
     errorMsg := errorMsg st; searchText := searchText st; isLoading := v;
     distance := distance st; isTracking := isTracking st;
     hasAlerted := hasAlerted st;
     locationSubscription := locationSubscription st |}.

Definition setDistance (v : option number) (st : State) : State :=
  {| location := location st; destination := destination st;
     errorMsg := errorMsg st; searchText := searchText st;
     isLoading := isLoading st; distance := v; isTracking := isTracking st;
     hasAlerted := hasAlerted st;
     locationSubscription := locationSubscription st |}.

Definition setIsTracking (v : bool) (st : State) : State :=
  {| location := location st; destination := destination st;
     errorMsg := errorMsg st; searchText := searchText st;
     isLoading := isLoading st; distance := distance st; isTracking := v;
     hasAlerted := hasAlerted st;
     locationSubscription := locationSubscription st |}.

Definition setHasAlerted (v : bool) (st : State) : State :=
  {| location := location st; destination := destination st;
     errorMsg := errorMsg st; searchText := searchText st;
     isLoading := isLoading st; distance := distance st;
     isTracking := isTracking st; hasAlerted := v;
     locationSubscription := locationSubscription st |}.

Definition setLocationSubscription (v : bool) (st : State) : State :=
  {| location := location st; destination := destination st;
     errorMsg := errorMsg st; searchText := searchText st;
     isLoading := isLoading st; distance := distance st;
     isTracking := isTracking st; hasAlerted := hasAlerted st;
     locationSubscription := v |}.

(** [mapRef.current]: the map is mounted unless the component returned the
    error view (line 246) or the loading view (line 255). *)
Definition mapRef_current (st : State) : bool :=
  negb (truthy (errorMsg st)) && negb (isLoading st && negb (truthy (location st))).

(** The mount effect (lines 52-67). *)
Definition useEffect_mount (o : PositionOutcome) (st : State) : State :=
  let st := setIsLoading true st in
  match o with
  | PermissionDenied =>
      setIsLoading false
        (setErrorMsg (Some "Permission to access location was denied"%string) st)
  | Fix coords => setIsLoading false (setLocation (Some coords) st)
  | PositionUnavailable => st
  end.

(** [stopLocationTracking] (lines 134-139). *)
Definition stopLocationTracking (st : State) : State * list Effect :=
  if locationSubscription st
  then (setLocationSubscription false st, [RemoveSubscription])
  else (st, []).

(** [startLocationTracking] (lines 104-132), with what the location
    provider answered. *)
Definition startLocationTracking (o : TrackingOutcome) (st : State)
  : State * list Effect :=
  match o with
  | BackgroundDenied =>
      (setIsTracking false st,
       [RequestBackgroundPermissions;
        AlertDialog "Background Permission Required"
          (Text "Please enable background location to track your journey.")])
  | WatchFailed =>
      (setIsTracking false st,
       [RequestBackgroundPermissions; WatchPositionAsync; ConsoleError;
        AlertDialog "Error" (Text "Failed to start location tracking")])
  | Watching =>
      (setLocationSubscription true st,
       [RequestBackgroundPermissions; WatchPositionAsync])
  end.

(** The tracking effect (lines 77-85): the cleanup of its previous run,
    then its body. *)
Definition useEffect_tracking (o : TrackingOutcome) (st : State)
  : State * list Effect :=
  let '(st0, out0) := stopLocationTracking st in
  let '(st1, out1) :=
    if isTracking st0 && truthy (destination st0)
    then startLocationTracking o st0
    else stopLocationTracking st0 in
  (st1, out0 ++ out1).

(** [triggerProximityAlert] (lines 156-170). *)
Definition triggerProximityAlert (dist : number) : list Effect :=
  [Vibrate [500; 200; 500; 200; 500]%Z;
   AlertDialog "🎯 Destination Nearby!" (KmAway dist)].

(** The distance effect (lines 88-102), run after a render in which
    [location] or [destination] changed; [hasAlerted] is the value of that
    render. *)
Definition useEffect_distance (M : MathObject) (st : State)
  : Completion (State * list Effect) :=
  if truthy (location st) && truthy (destination st) then
    dist <- calculateDistance M (location st) (destination st) ;;
    let st1 := setDistance (Some dist) st in
    if le dist 2%float && negb (hasAlerted st) then
      Normal (setHasAlerted true st1, triggerProximityAlert dist)
    else if gt dist 2.5%float then
      Normal (setHasAlerted false st1, [])
    else Normal (st1, [])
  else Normal (st, []).

(** [mapRef.current.fitToCoordinates([location, coords], ...)] under its
    guard [mapRef.current && location]. *)
Definition fitToCoordinates (location : option Coordinate) (coords : Coordinate)
  (st : State) : list Effect :=
  match location with
  | Some l => if mapRef_current st then [FitToCoordinates [l; coords]] else []
  | None => []
  end.

(** [handleMapPress] (lines 172-184). *)
Definition handleMapPress (coords : Coordinate) (st : State) : State * list Effect :=
  (setHasAlerted false (setDestination (Some coords) st),
   fitToCoordinates (location st) coords st).

(** The rest of [handleSearch] after [await Location.geocodeAsync]
    (lines 195-216): [closure] is the render the handler was created in,
    [st] the state the setters act on when the promise settles. *)
Definition handleSearch_settled (closure : State) (r : GeocodeResult) (st : State)
  : State * list Effect :=
  let '(st1, out) :=
    match r with
    | Fulfilled (g0 :: _) =>
        let coords := {| latitude := latitude g0; longitude := longitude g0 |} in
        (setHasAlerted false (setDestination (Some coords) st),
         fitToCoordinates (location closure) coords st)
    | Fulfilled [] =>
        (st, [AlertDialog "Not Found" (Text "Location not found. Please try again.")])
    | Rejected =>
        (st, [AlertDialog "Error"
                (Text "Failed to search location. Please try again.")])
    end in
  (setIsLoading false st1, out).

(** [handleSearch] (lines 186-217), the provider answering at once. *)
Definition handleSearch (r : GeocodeResult) (st : State) : State * list Effect :=
  if negb (truthy_string (trim (searchText st))) then
    (st, [AlertDialog "Error" (Text "Please enter a location to search")])
  else
    let '(st1, out) := handleSearch_settled st r (setIsLoading true st) in
    (st1, GeocodeAsync (searchText st) :: out).

(** [clearDestination] (lines 219-225). *)
Definition clearDestination (st : State) : State :=
  setSearchText []
    (setHasAlerted false
       (setIsTracking false
          (setDistance None
             (setDestination None st)))).

(** [centerOnLocation] (lines 227-236). *)
Definition centerOnLocation (st : State) : list Effect :=
  match location st with
  | Some l => if mapRef_current st then [AnimateToRegion l] else []
  | None => []
  end.

(** [toggleTracking] (lines 238-244). *)
Definition toggleTracking (st : State) : State * list Effect :=
  if negb (truthy (destination st)) then
    (st, [AlertDialog "No Destination" (Text "Please select a destination first")])
  else (setIsTracking (negb (isTracking st)) st, []).

Inductive Event :=
| Mount (o : PositionOutcome)
| LocationUpdate (coords : Coordinate)   (* the watchPositionAsync callback *)
| MapPress (coords : Coordinate)
| ChangeText (text : jsstring)
| SubmitSearch (r : GeocodeResult)
| ClearDestination
| ToggleTracking
| CenterOnLocation.

(** The effects of the render that follows a handler: the tracking effect
    when [isTracking] or [destination] changed, then the distance effect
    when [location] or [destination] changed (their order in the file). *)
Definition afterRender (M : MathObject) (o : TrackingOutcome)
  (tracking distance : bool) (r : State * list Effect)
  : Completion (State * list Effect) :=
  let '(st, out) := r in
  let '(st1, out1) := if tracking then useEffect_tracking o st else (st, []) in
  r2 <- (if distance then useEffect_distance M st1 else Normal (st1, [])) ;;
  Normal (fst r2, out ++ out1 ++ snd r2).

Definition found (r : GeocodeResult) : bool :=
  match r with
  | Fulfilled (_ :: _) => true
  | _ => false
  end.

(** One event: the handler, then the render's effects.  Every
    [setLocation] and every [setDestination] with a coordinate passes a
    fresh object, so those dependencies change whenever the setter runs;
    [o] is what the location provider answers should tracking start.  The
    state updates of one handler reach the effects as one render: React
    batches the updates made inside an event handler, and those
    [handleSearch] makes after its [await] under the automatic batching of
    a React 18 root.  The provider answers at once, so the requests of
    [startLocationTracking] are listed before those of the distance
    effect. *)
Definition step (M : MathObject) (o : TrackingOutcome) (ev : Event) (st : State)
  : Completion (State * list Effect) :=
  match ev with
  | Mount (Fix coords) =>
      afterRender M o false true (useEffect_mount (Fix coords) st, [])
  | Mount p => Normal (useEffect_mount p st, [])
  | LocationUpdate coords =>
      afterRender M o false true (setLocation (Some coords) st, [])
  | MapPress coords => afterRender M o true true (handleMapPress coords st)
  | ChangeText text => Normal (setSearchText text st, [])
  | SubmitSearch r =>
      let selected := truthy_string (trim (searchText st)) && found r in
      afterRender M o selected selected (handleSearch r st)
  | ClearDestination =>
      afterRender M o (truthy (destination st) || isTracking st)
        (truthy (destination st)) (clearDestination st, [])
  | ToggleTracking =>
      afterRender M o (truthy (destination st)) false (toggleTracking st)
  | CenterOnLocation => Normal (st, centerOnLocation st)
  end.

(** A session: each event comes with the provider's answer for it. *)
Fixpoint run (M : MathObject) (evs : list (TrackingOutcome * Event)) (st : State)
  : Completion (State * list Effect) :=
  match evs with
  | [] => Normal (st, [])
  | (o, ev) :: evs' =>
      r <- step M o ev st ;;
      r' <- run M evs' (fst r) ;;
      Normal (fst r', snd r ++ snd r')
  end.

(** The position an event delivers, if it delivers one. *)
Definition sample (ev : Event) : option Coordinate :=
  match ev with
  | Mount (Fix coords) => Some coords
  | LocationUpdate coords => Some coords
  | _ => None
  end.

(** Events that select or clear a destination. *)
Definition selects (ev : Event) : bool :=
  match ev with
  | MapPress _ => true
  | SubmitSearch r => found r
  | ClearDestination => true
  | _ => false
  end.

End HomeTracking.

(** ** Vocabulary of the statements *)


(** A query that is empty or holds white space only. *)
Definition blank (q : jsstring) : bool := forallb isWhiteSpace q.

(** A list of effects with neither half of a proximity alert in it. *)
Definition quiet (out : list Effect) : Prop :=
  vibrations out = 0 /\ proximityMessages out = 0.

(** A position the event delivers is within the clear radius of [d]. *)
Definition withinClear (M : MathObject) (d : Coordinate) (ev : HomeTracking.Event) : bool :=
  match HomeTracking.sample ev with
  | Some c => le (distanceKm M c d) 2.5%float
  | None => true
  end.

(** An approach to [d]: a stretch of the session in which no destination
    is selected or cleared and no position beyond the clear radius of [d]
    arrives. *)
Definition approach (M : MathObject) (d : Coordinate)
  (evs : list (TrackingOutcome * HomeTracking.Event)) : bool :=
  forallb (fun oe => negb (HomeTracking.selects (snd oe)) && withinClear M d (snd oe)) evs.

(** The coordinate [handleSearch] builds from the provider's first result. *)
Definition firstResult (g0 : Coordinate) : Coordinate :=
  {| latitude := latitude g0; longitude := longitude g0 |}.

(** *** A journey to run

    The default map centre of the screen as the destination, and positions
    north of it: 0.01 degrees of latitude are about 1.11 km. *)

Definition target : Coordinate := place 10.0558 76.6183.
Definition at_1_1_km : Coordinate := place 10.0658 76.6183.
Definition at_1_7_km : Coordinate := place 10.0708 76.6183.
Definition at_2_2_km : Coordinate := place 10.0758 76.6183.
Definition at_3_3_km : Coordinate := place 10.0858 76.6183.

(** The state after the first fix (3.3 km away) and a tap on [target]. *)
Definition selected : HomeTracking.State :=
  {| HomeTracking.location := Some at_3_3_km;
     HomeTracking.destination := Some target;
     HomeTracking.errorMsg := None;
     HomeTracking.searchText := [];
     HomeTracking.isLoading := false;
     HomeTracking.distance := Some (distanceKm smallAngle at_3_3_km target);
     HomeTracking.isTracking := false;
     HomeTracking.hasAlerted := false;
     HomeTracking.locationSubscription := false |}.

(** The state after tracking is switched on there and a position 1.1 km
    from [target] has come in: the alert has fired. *)
Definition arrived : HomeTracking.State :=
  {| HomeTracking.location := Some at_1_1_km;
     HomeTracking.destination := Some target;
     HomeTracking.errorMsg := None;
     HomeTracking.searchText := [];
     HomeTracking.isLoading := false;
     HomeTracking.distance := Some (distanceKm smallAngle at_1_1_km target);
     HomeTracking.isTracking := true;
     HomeTracking.hasAlerted := true;
     HomeTracking.locationSubscription := true |}.

Definition inbound : list (TrackingOutcome * HomeTracking.Event) :=
  [(Watching, HomeTracking.ToggleTracking);
   (Watching, HomeTracking.LocationUpdate at_2_2_km);
   (Watching, HomeTracking.LocationUpdate at_1_7_km);
   (Watching, HomeTracking.LocationUpdate at_1_1_km);
   (Watching, HomeTracking.CenterOnLocation);
   (Watching, HomeTracking.LocationUpdate at_1_7_km);
   (Watching, HomeTracking.LocationUpdate at_2_2_km)].

(** The text "Kochi". *)
Definition kochi : jsstring := [75; 111; 99; 104; 105]%N.

(** A user standing 1.1 km from the searched place, tapping the map twice,
    both times more than 2 km away. *)
Definition standing_still : list Home.Event :=
  [Home.Mount (Fix at_1_1_km);
   Home.ChangeText kochi;
   Home.PressSearch (Fulfilled [target]);
   Home.MapPress at_3_3_km;
   Home.MapPress (place 10.2 76.7)].

(** Two points on the equator-meridian cross, 2^-28 degrees of latitude
    (0.4 mm) apart. *)
Definition origin : Coordinate := place 0 0.
Definition hair_north : Coordinate := place 0x1p-28 0.

(** ** The alert state machine of the specification *)

(** The three states of the specification's proximity alert machine. *)
Inductive AlertState := IDLE | ARMED | FIRED.

(** The specification's transition on a location sample at distance
    [dist], with whether it emits the alert: ARMED fires within the alert
    radius (2.0 km), FIRED rearms beyond the clear radius (2.5 km), IDLE
    has no destination to measure to. *)
Definition spec_sample (s : AlertState) (dist : number) : AlertState * bool :=
  match s with
  | IDLE => (IDLE, false)
  | ARMED => if le dist 2 then (FIRED, true) else (ARMED, false)
  | FIRED => if gt dist 2.5 then (ARMED, false) else (FIRED, false)
  end.

(** The state of the machine a state of the tracking screen stands for. *)
Definition alertState (st : HomeTracking.State) : AlertState :=
  match HomeTracking.destination st with
  | None => IDLE
  | Some _ => if HomeTracking.hasAlerted st then FIRED else ARMED
  end.

(** ** Vocabulary of the session properties *)

(** Requests that drive the map view. *)
Definition isMapEffect (e : Effect) : bool :=
  match e with
  | FitToCoordinates _ => true
  | AnimateToRegion _ => true
  | _ => false
  end.

(** A proximity dialog announces a distance within the alert radius. *)
Definition withinAlertRadius (e : Effect) : bool :=
  match e with
  | AlertDialog _ (KmAway dist) => le dist 2
  | _ => true
  end.

(** Vibrations and proximity dialogs come in pairs, and a proximity dialog
    announces a distance within the alert radius. *)
Definition paired (out : list Effect) : Prop :=
  vibrations out = proximityMessages out /\ forallb withinAlertRadius out = true.

(** The displayed distance is the distance from the location to the
    destination, and null when either is missing. *)
Definition distanceShown (M : MathObject) (st : HomeTracking.State) : Prop :=
  HomeTracking.distance st =
  match HomeTracking.location st, HomeTracking.destination st with
  | Some l, Some d => Some (distanceKm M l d)
  | _, _ => None
  end.

(** The alert flag is set only with the location not beyond the clear
    radius of the destination. *)
Definition firedWithinClear (M : MathObject) (st : HomeTracking.State) : Prop :=
  HomeTracking.hasAlerted st = true ->
  exists l d,
    HomeTracking.location st = Some l /\ HomeTracking.destination st = Some d /\
    gt (distanceKm M l d) 2.5 = false.

(** Tracking is on only with a destination, and a subscription is held
    only while tracking is on. *)
Definition trackingBound (st : HomeTracking.State) : Prop :=
  (HomeTracking.isTracking st = true -> HomeTracking.destination st <> None) /\
  (HomeTracking.locationSubscription st = true -> HomeTracking.isTracking st = true).

(** What every state of a session satisfies. *)
Definition consistent (M : MathObject) (st : HomeTracking.State) : Prop :=
  distanceShown M st /\ firedWithinClear M st /\ trackingBound st.

(** The mirror images of a coordinate in the equator and in the prime
    meridian. *)
Definition mirrorNS (a : Coordinate) : Coordinate :=
  place (- latitude a) (longitude a).
Definition mirrorEW (a : Coordinate) : Coordinate :=
  place (latitude a) (- longitude a).

(** Events of the snapshot screen in which a search returns a place. *)
Definition finds (ev : Home.Event) : bool :=
  match ev with
  | Home.PressSearch (Fulfilled (_ :: _)) => true
  | _ => false
  end.

(** ** The tracking screen: what it renders *)

Module TrackingView.

Import HomeTracking.

(** A number as a condition: [0], [-0] and [NaN] are falsy. *)
Definition truthy_number (x : number) : bool :=
  negb (PrimFloat.is_zero x) && negb (PrimFloat.is_nan x).

(** The description of the destination marker (line 337): the empty
    string, or [`${distance.toFixed(2)} km away`]. *)
Inductive MarkerText :=
| Empty
| KmAwayFrom (dist : number).

Definition description (distance : option number) : MarkerText :=
  match distance with
  | Some dist => if truthy_number dist then KmAwayFrom dist else Empty
  | None => Empty
  end.

(** The info card (lines 347-382): the distance it prints and whether its
    button reads "Stop Tracking". *)
Record Card := {
  shownDistance : number;
  stopLabel : bool
}.

(** The conditional parts of the main view (lines 264-402). *)
Record Screen := {
  clearTextButton : bool;                                (* line 280 *)
  searchButtonDisabled : bool;                           (* line 289 *)
  locationMarker : option Coordinate;                    (* line 314 *)
  destinationMarker : option (Coordinate * MarkerText);  (* line 333 *)
  infoCard : option Card;                                (* line 347 *)
  trackingIndicator : bool                               (* line 395 *)
}.

Inductive View :=
| ErrorView (msg : string)   (* lines 246-253 *)
| LoadingView                (* lines 255-262 *)
| MainView (s : Screen).

(** What the component returns (lines 246-402).  [errorMsg] is null or
    the message of line 56, which is not empty, so [if (errorMsg)] tests
    for null. *)
Definition render (st : State) : View :=
  match errorMsg st with
  | Some msg => ErrorView msg
  | None =>
      if isLoading st && negb (truthy (location st)) then LoadingView
      else
        MainView {|
          clearTextButton := truthy_string (searchText st);
          searchButtonDisabled := isLoading st;
          locationMarker := location st;
          destinationMarker :=
            match destination st with
            | Some d => Some (d, description (distance st))
            | None => None
            end;
          infoCard :=
            match destination st, distance st with
            | Some _, Some dist =>
                Some {| shownDistance := dist; stopLabel := isTracking st |}
            | _, _ => None
            end;
          trackingIndicator := isTracking st
        |}
  end.

(** The user events a view has a handler for: the text box (lines 275 and
    277, and the clear-text button of line 281), the search button (line
    288), the map (line 303), the two buttons of the info card (lines 362
    and 376) and the locate button (line 388). *)
Definition offers (v : View) (ev : Event) : bool :=
  match v, ev with
  | MainView _, MapPress _ => true
  | MainView _, ChangeText _ => true
  | MainView _, SubmitSearch _ => true
  | MainView s, ClearDestination => truthy (infoCard s)
  | MainView s, ToggleTracking => truthy (infoCard s)
  | MainView _, CenterOnLocation => true
  | _, _ => false
  end.

(** The events that can arrive in a state: the user events the rendered
    view offers, a position while the subscription is held, and the answer
    to the position request of the mount effect, which no field of the
    state records as pending and so is allowed in every state. *)
Definition enabled (st : State) (ev : Event) : bool :=
  match ev with
  | Mount _ => true
  | LocationUpdate _ => locationSubscription st
  | _ => offers (render st) ev
  end.

(** A session in which every event is enabled in the state it arrives in. *)
Fixpoint driven (M : MathObject) (evs : list (TrackingOutcome * Event)) (st : State)
  : bool :=
  match evs with
  | [] => true
  | (o, ev) :: evs' =>
      enabled st ev &&
      match step M o ev st with
      | Normal (st', _) => driven M evs' st'
      | Throw _ => true
      end
  end.

End TrackingView.

(** The "No Destination" dialog of [toggleTracking] (line 240). *)
Definition isNoDestinationDialog (e : Effect) : bool :=
  match e with
  | AlertDialog title (Text _) => String.eqb title "No Destination"
  | _ => false
  end.

(** ** Binary64 arithmetic

    Facts about the primitive operations, each derived from the
    specification [SpecFloat] the primitives are axiomatised against. *)

Module IEEE.
Local Open Scope float_scope.

(** *** Comparisons *)

(** Swapping the operands of a comparison reverses its outcome; with a NaN
    there is none either way. *)
Lemma SFcompare_antisym (x y : spec_float) :
  SFcompare y x = option_map CompOpp (SFcompare x y).
Proof.
  destruct x as [sx|sx| |sx mx ex], y as [sy|sy| |sy my ey]; simpl;
    try reflexivity;
    try (destruct sx; reflexivity); try (destruct sy; reflexivity);
    try (destruct sx, sy; reflexivity).
  destruct sx, sy; simpl; try reflexivity;
    rewrite (Z.compare_antisym ex ey);
    destruct (ex ?= ey)%Z; simpl; try reflexivity;
    rewrite (ZC4 my mx);
    destruct (Pos.compare_cont Eq mx my); reflexivity.
Qed.

(** [x <= y] excludes [x > y]. *)
Lemma leb_true_ltb_false (x y : float) :
  (x <=? y) = true -> (y <? x) = false.
Proof.
  rewrite leb_spec, ltb_spec. unfold SFleb, SFltb.
  rewrite (SFcompare_antisym (Prim2SF x) (Prim2SF y)).
  destruct (SFcompare (Prim2SF x) (Prim2SF y)) as [[ | | ]|]; simpl; congruence.
Qed.

(** [x < y] excludes [x >= y]. *)
Lemma ltb_true_leb_false (x y : float) :
  (x <? y) = true -> (y <=? x) = false.
Proof.
  rewrite leb_spec, ltb_spec. unfold SFleb, SFltb.
  rewrite (SFcompare_antisym (Prim2SF x) (Prim2SF y)).
  destruct (SFcompare (Prim2SF x) (Prim2SF y)) as [[ | | ]|]; simpl; congruence.
Qed.

(** *** Signs

    Rounding to nearest, ties to even, does not look at the sign: negating
    an operand negates the rounded result. *)

Lemma opp_involutive (x : float) : - - x = x.
Proof.
  apply Prim2SF_inj. rewrite !opp_spec.
  destruct (Prim2SF x) as [s|s| |s m e]; simpl; rewrite ?negb_involutive; reflexivity.
Qed.

Lemma SFopp_binary_round_aux (s : bool) (m e : Z) (l : location) :
  SFopp (binary_round_aux prec emax s m e l) = binary_round_aux prec emax (negb s) m e l.
Proof.
  unfold binary_round_aux.
  destruct (shr_fexp prec emax m e l) as [mrs' e'].
  destruct (shr_fexp prec emax _ e' loc_Exact) as [mrs'' e''].
  destruct (shr_m mrs''); simpl; try reflexivity.
  destruct (_ <=? _)%Z; reflexivity.
Qed.

Lemma SFmul_opp_l (x y : spec_float) :
  SFmul prec emax (SFopp x) y = SFopp (SFmul prec emax x y).
Proof.
  destruct x as [sx|sx| |sx mx ex], y as [sy|sy| |sy my ey]; simpl;
    rewrite ?negb_xorb_l; try reflexivity.
  rewrite SFopp_binary_round_aux. now rewrite negb_xorb_l.
Qed.

Lemma mul_opp_l (x y : float) : (- x) * y = - (x * y).
Proof.
  apply Prim2SF_inj. rewrite mul_spec, !opp_spec, mul_spec. apply SFmul_opp_l.
Qed.

Lemma SFmul_comm (x y : spec_float) : SFmul prec emax x y = SFmul prec emax y x.
Proof.
  destruct x as [sx|sx| |sx mx ex], y as [sy|sy| |sy my ey]; simpl;
    rewrite ?(xorb_comm sx sy); try reflexivity.
  now rewrite (Pos.mul_comm mx my), (Z.add_comm ex ey).
Qed.

Lemma mul_comm (x y : float) : x * y = y * x.
Proof.
  apply Prim2SF_inj. rewrite !mul_spec. apply SFmul_comm.
Qed.

Lemma binary_normalize_opp (m e : Z) :
  m <> 0%Z ->
  binary_normalize prec emax (- m) e false = SFopp (binary_normalize prec emax m e false).
Proof.
  intros Hm. destruct m as [|q|q]; [congruence| |]; simpl;
    unfold binary_round;
    destruct (shl_align q e _) as [mz ez];
    now rewrite SFopp_binary_round_aux.
Qed.

(** [y - x] is the opposite of [x - y], except that both are [+0] when the
    difference is zero. *)
Lemma SFsub_antisym (x y : spec_float) :
  SFsub prec emax y x = SFopp (SFsub prec emax x y) \/
  SFsub prec emax y x = SFsub prec emax x y.
Proof.
  destruct x as [sx|sx| |sx mx ex], y as [sy|sy| |sy my ey]; simpl;
    try (left; reflexivity); try (right; reflexivity);
    try (destruct sx, sy; simpl; (left; reflexivity) || (right; reflexivity)).
  rewrite (Z.min_comm ey ex).
  set (a := cond_Zopp sx _). set (b := cond_Zopp sy _).
  destruct (Z.eq_dec (a - b) 0) as [E|N].
  - right. replace (b - a)%Z with 0%Z by lia. now rewrite E.
  - left. replace (b - a)%Z with (- (a - b))%Z by lia.
    now apply binary_normalize_opp.
Qed.

Lemma sub_antisym (x y : float) : y - x = - (x - y) \/ y - x = x - y.
Proof.
  destruct (SFsub_antisym (Prim2SF x) (Prim2SF y)) as [H|H]; [left|right];
    apply Prim2SF_inj; rewrite ?opp_spec, !sub_spec; exact H.
Qed.

(** *** Finite numbers *)



(** *** No overflow below one

    The mantissa of a product is bounded through its number of binary
    digits; shifting and rounding to nearest can add one unit at most. *)












(** *** More on signs and the two radii *)

(** Negating both operands of a subtraction swaps them. *)
Lemma SFsub_opp_opp (x y : spec_float) :
  SFsub prec emax (SFopp y) (SFopp x) = SFsub prec emax x y.
Proof.
  destruct x as [sx|sx| |sx mx ex], y as [sy|sy| |sy my ey]; simpl;
    try reflexivity; try (destruct sx, sy; reflexivity);
    rewrite ?negb_involutive; try reflexivity.
  rewrite (Z.min_comm ey ex). f_equal.
  destruct sx, sy; simpl; lia.
Qed.

Lemma sub_opp_opp (x y : float) : (- y) - (- x) = x - y.
Proof.
  apply Prim2SF_inj. rewrite !sub_spec, !opp_spec. apply SFsub_opp_opp.
Qed.

(** A number within the alert radius (2) is not beyond the clear radius
    (2.5). *)
Lemma SFleb_2_not_gt_2_5 (x : spec_float) :
  SFleb x (S754_finite false 4503599627370496 (-51)) = true ->
  SFltb (S754_finite false 5629499534213120 (-51)) x = false.
Proof.
  unfold SFleb, SFltb.
  destruct x as [[|]|[|]| |[|] m e]; cbn [SFcompare];
    try reflexivity; try discriminate.
  rewrite (Z.compare_antisym e (-51)).
  destruct (Z.compare_spec e (-51)) as [E|E|E]; cbn [CompOpp];
    try discriminate; [|reflexivity].
  intros H.
  assert (L : (m <= 4503599627370496)%positive).
  { unfold Pos.le, Pos.compare.
    destruct (Pos.compare_cont Eq m 4503599627370496); congruence. }
  assert (G : (5629499534213120 ?= m)%positive = Gt).
  { apply Pos.compare_gt_iff. apply (Pos.le_lt_trans _ _ _ L). reflexivity. }
  unfold Pos.compare in G. now rewrite G.
Qed.

Lemma leb_2_not_gt_2_5 (x : float) : (x <=? 2) = true -> (2.5 <? x) = false.
Proof.
  rewrite leb_spec, ltb_spec.
  change (Prim2SF 2) with (S754_finite false 4503599627370496 (-51)).
  change (Prim2SF 2.5) with (S754_finite false 5629499534213120 (-51)).
  apply SFleb_2_not_gt_2_5.
Qed.

(** [NaN] compares false with everything. *)
Lemma is_nan_Prim2SF (x : float) : is_nan x = true -> Prim2SF x = S754_nan.
Proof.
  unfold is_nan. rewrite eqb_spec. unfold SFeqb.
  destruct (Prim2SF x) as [[|]|[|]| |[|] m e]; cbn [SFcompare];
    try discriminate; try reflexivity;
    rewrite Z.compare_refl, ?Pos.compare_cont_refl; cbn; discriminate.
Qed.

Lemma is_nan_unordered (x y : float) :
  is_nan x = true -> (x <=? y) = false /\ (y <? x) = false /\ is_zero x = false.
Proof.
  intros H. apply is_nan_Prim2SF in H.
  unfold is_zero. rewrite leb_spec, ltb_spec, eqb_spec, H.
  unfold SFleb, SFltb, SFeqb. cbn [SFcompare].
  repeat split; now destruct (Prim2SF y).
Qed.

End IEEE.

(** ** The distance function *)

Section Distance.

Local Open Scope float_scope.

Variable M : MathObject.

(** On two objects [calculateDistance] returns normally. *)
Lemma calculateDistance_objects (c1 c2 : Coordinate) :
  calculateDistance M (Some c1) (Some c2) = Normal (distanceKm M c1 c2).
Proof. reflexivity. Qed.

(** A [null] or [undefined] argument makes it throw. *)
Lemma calculateDistance_null_r (c1 : option Coordinate) :
  calculateDistance M c1 None = Throw TypeError.
Proof. destruct c1; reflexivity. Qed.

Lemma calculateDistance_null_l (c2 : option Coordinate) :
  calculateDistance M None c2 = Throw TypeError.
Proof. reflexivity. Qed.

(** Swapping the operands of a subtraction negates the scaled angle, or
    leaves it as it is (both differences are [+0]). *)
Lemma angle_swap (x y : number) (Heven : forall t, Math_cos M (- t) = Math_cos M t) :
  Math_cos M ((y - x) * 0.017453292519943295) =
  Math_cos M ((x - y) * 0.017453292519943295).
Proof.
  destruct (IEEE.sub_antisym x y) as [E|E]; rewrite E; [|reflexivity].
  now rewrite IEEE.mul_opp_l, Heven.
Qed.

End Distance.

(** The cosine of [smallAngle] reads its argument through its square only. *)
Lemma smallAngle_cos_even (t : number) :
  Math_cos smallAngle (- t)%float = Math_cos smallAngle t.
Proof.
  unfold smallAngle, Math_cos.
  assert (E : ((- t) * (- t) = t * t)%float).
  { rewrite IEEE.mul_opp_l, (IEEE.mul_comm t (- t)), IEEE.mul_opp_l.
    apply IEEE.opp_involutive. }
  now rewrite E.
Qed.

(** C9: for every pair of coordinates, [calculateDistance(a, b)] equals
    [calculateDistance(b, a)], on every engine whose [Math.cos] is an even
    function. *)
Theorem calculateDistance_symmetric (M : MathObject) (a b : Coordinate) :
  (forall t, Math_cos M (- t)%float = Math_cos M t) ->
  calculateDistance M (Some a) (Some b) = calculateDistance M (Some b) (Some a).
Proof.
  intros Heven. unfold calculateDistance. simpl.
  rewrite (angle_swap M (latitude a) (latitude b) Heven).
  rewrite (angle_swap M (longitude a) (longitude b) Heven).
  now rewrite (IEEE.mul_comm (Math_cos M (latitude a * _)%float)
                             (Math_cos M (latitude b * _)%float)).
Qed.

Lemma calculateDistance_symmetric_witness :
  calculateDistance smallAngle
    (Some {| latitude := 10.0558%float; longitude := 76.6183%float |})
    (Some {| latitude := 9.9312%float; longitude := 76.2673%float |}) =
  calculateDistance smallAngle
    (Some {| latitude := 9.9312%float; longitude := 76.2673%float |})
    (Some {| latitude := 10.0558%float; longitude := 76.6183%float |}).
Proof.
  apply (calculateDistance_symmetric smallAngle).
  exact smallAngle_cos_even.
Defined.



(** Outside the finite numbers, which no provider supplies, the result is
    NaN: [Infinity - Infinity] is NaN and goes through every later
    operation ([Math.cos(NaN)] and [Math.asin(NaN)] are NaN, ECMA-262). *)
Lemma calculateDistance_not_finite (M : MathObject) (a : Coordinate) :
  Math_cos M nan = nan ->
  Math_asin M nan = nan ->
  latitude a = infinity \/ latitude a = neg_infinity \/ latitude a = nan ->
  calculateDistance M (Some a) (Some a) = Normal nan.
Proof.
  intros Hcos Hasin H.
  unfold calculateDistance, Math_sqrt. simpl.
  assert (E : (latitude a - latitude a)%float = nan)
    by (destruct H as [-> | [-> | ->]]; reflexivity).
  rewrite E.
  replace (nan * 0.017453292519943295)%float with nan by reflexivity.
  rewrite Hcos.
  assert (N1 : forall x, (0.5 - nan / 2 + x)%float = nan).
  { intros x. apply Prim2SF_inj. rewrite add_spec.
    replace (0.5 - nan / 2)%float with nan by reflexivity. reflexivity. }
  rewrite N1.
  replace (PrimFloat.sqrt nan) with nan by reflexivity.
  rewrite Hasin. reflexivity.
Qed.

(** ** The distance expression and the haversine formula *)

Section ExactDistance.

Local Open Scope R_scope.

Lemma half_versine (x : R) : (1 - cos x) / 2 = (sin (x / 2))².
Proof.
  replace x with (2 * (x / 2)) at 1 by lra.
  rewrite cos_2a_sin. unfold Rsqr. lra.
Qed.

(** Over the reals the expression is the haversine formula on a sphere of
    radius 6371 km. *)
Lemma exact_is_haversine (lat1 lon1 lat2 lon2 : R) :
  Exact.calculateDistance lat1 lon1 lat2 lon2 =
  Exact.haversine 6371 (Exact.radians lat1) (Exact.radians lon1)
    (Exact.radians lat2) (Exact.radians lon2).
Proof.
  cbv [Exact.calculateDistance Formula.distance Formula.sqrtArgument Formula.reals
       Formula.lit Formula.plus Formula.minus Formula.times Formula.over
       Formula.cosine Formula.arcsine Formula.root].
  unfold Exact.haversine, Exact.radians.
  replace (2 * 6371) with 12742 by lra.
  do 3 f_equal.
  replace ((lat2 * 0.017453292519943295 - lat1 * 0.017453292519943295) / 2)
    with ((lat2 - lat1) * 0.017453292519943295 / 2) by lra.
  replace ((lon2 * 0.017453292519943295 - lon1 * 0.017453292519943295) / 2)
    with ((lon2 - lon1) * 0.017453292519943295 / 2) by lra.
  rewrite <- !half_versine. lra.
Qed.

(** Along a meridian from the equator, up to 90 degrees, the exact
    distance is the arc: 6371 km times the angle. *)
Lemma exact_along_meridian (lat : R) :
  0 <= lat <= 90 ->
  Exact.calculateDistance 0 0 lat 0 = 6371 * Exact.radians lat.
Proof.
  intros H.
  cbv [Exact.calculateDistance Formula.distance Formula.sqrtArgument Formula.reals
       Formula.lit Formula.plus Formula.minus Formula.times Formula.over
       Formula.cosine Formula.arcsine Formula.root].
  unfold Exact.radians.
  replace ((lat - 0) * 0.017453292519943295) with (lat * 0.017453292519943295) by lra.
  replace ((0 - 0) * 0.017453292519943295) with 0 by lra.
  replace (0 * 0.017453292519943295) with 0 by lra.
  rewrite cos_0.
  replace (0.5 - cos (lat * 0.017453292519943295) / 2 +
           1 * cos (lat * 0.017453292519943295) * (1 - 1) / 2)
    with ((1 - cos (lat * 0.017453292519943295)) / 2) by lra.
  rewrite half_versine.
  pose proof PI2_3_2 as HPI.
  rewrite sqrt_Rsqr.
  - rewrite asin_sin; lra.
  - apply sin_ge_0; lra.
Qed.

(** The same along the equator. *)
Lemma exact_along_equator (lon : R) :
  0 <= lon <= 90 ->
  Exact.calculateDistance 0 0 0 lon = 6371 * Exact.radians lon.
Proof.
  intros H.
  cbv [Exact.calculateDistance Formula.distance Formula.sqrtArgument Formula.reals
       Formula.lit Formula.plus Formula.minus Formula.times Formula.over
       Formula.cosine Formula.arcsine Formula.root].
  unfold Exact.radians.
  replace ((lon - 0) * 0.017453292519943295) with (lon * 0.017453292519943295) by lra.
  replace ((0 - 0) * 0.017453292519943295) with 0 by lra.
  replace (0 * 0.017453292519943295) with 0 by lra.
  rewrite cos_0.
  replace (0.5 - 1 / 2 + 1 * 1 * (1 - cos (lon * 0.017453292519943295)) / 2)
    with ((1 - cos (lon * 0.017453292519943295)) / 2) by lra.
  rewrite half_versine.
  pose proof PI2_3_2 as HPI.
  rewrite sqrt_Rsqr.
  - rewrite asin_sin; lra.
  - apply sin_ge_0; lra.
Qed.

End ExactDistance.

(** [hair_north] lies 2^-28 degrees north of [origin], as a real number too. *)
Lemma toR_hair_north : toR (latitude hair_north) = (/ 2 ^ 28)%R.
Proof.
  unfold toR, hair_north, place, latitude.
  change (Prim2SF 0x1p-28) with (S754_finite false 4503599627370496 (-80)).
  cbv iota. unfold powerRZ.
  change (Pos.to_nat 80) with (52 + 28)%nat.
  change 4503599627370496%Z with (2 ^ Z.of_nat 52)%Z.
  rewrite <- pow_IZR, pow_add. field.
Qed.

(** On every engine that returns [1] for the cosine of [0] and of the tiny
    angle between the two points, the computed distance is [0]: the
    cosine has already rounded the angle away before [0.5 - c / 2]. *)
Lemma calculateDistance_cancels (M : MathObject) :
  Math_cos M 0 = 1%float ->
  Math_cos M (0x1p-28 * 0.017453292519943295) = 1%float ->
  Math_asin M 0 = 0%float ->
  calculateDistance M (Some origin) (Some hair_north) = Normal 0%float.
Proof.
  intros H0 Ht Ha. unfold calculateDistance, Math_sqrt, origin, hair_north, place.
  cbn [prop bind latitude longitude].
  replace (0x1p-28 - 0)%float with 0x1p-28%float by reflexivity.
  replace (0 - 0)%float with 0%float by reflexivity.
  replace (0 * 0.017453292519943295)%float with 0%float by reflexivity.
  rewrite H0, Ht.
  replace (PrimFloat.sqrt (0.5 - 1 / 2 + 1 * 1 * (1 - 1) / 2))%float with 0%float
    by reflexivity.
  rewrite Ha. reflexivity.
Qed.

(** C2, as the claim states it, fails: for two distinct points 0.4 mm
    apart the function returns exactly [0], while their haversine distance
    is positive, so the relative error is 1, not below 1e-9. *)
Lemma calculateDistance_nearby_is_zero :
  calculateDistance smallAngle (Some origin) (Some hair_north) = Normal 0%float /\
  (let h := Exact.haversine 6371
              (Exact.radians (toR (latitude origin)))
              (Exact.radians (toR (longitude origin)))
              (Exact.radians (toR (latitude hair_north)))
              (Exact.radians (toR (longitude hair_north))) in
   0 < h /\ 1e-9 * h <= Rabs (0 - h))%R.
Proof.
  split; [apply calculateDistance_cancels; reflexivity|].
  rewrite <- exact_is_haversine, toR_hair_north.
  change (toR (latitude origin)) with 0%R.
  change (toR (longitude origin)) with 0%R.
  change (toR (longitude hair_north)) with 0%R.
  assert (P : (0 < / 2 ^ 28)%R) by (apply Rinv_0_lt_compat, pow_lt; lra).
  assert (U : (/ 2 ^ 28 <= 90)%R).
  { apply Rle_trans with 1%R; [|lra].
    rewrite <- Rinv_1. apply Rinv_le_contravar; [lra|].
    apply pow_R1_Rle. lra. }
  rewrite exact_along_meridian by lra.
  unfold Exact.radians. cbv zeta.
  assert (H : (0 < 6371 * (/ 2 ^ 28 * 0.017453292519943295))%R) by nra.
  split; [exact H|].
  rewrite Rminus_0_l, Rabs_Ropp, Rabs_pos_eq by lra. lra.
Qed.

(** The reference pair, one degree of longitude on the equator, on any
    engine: the result is 12742 times the arcsine the engine returns. *)
Lemma calculateDistance_one_degree (M : MathObject) (c y : number) :
  Math_cos M 0 = 1%float ->
  Math_cos M 0.017453292519943295 = c ->
  Math_asin M (Math_sqrt (0.5 - 1 / 2 + 1 * 1 * (1 - c) / 2)) = y ->
  calculateDistance M (Some origin) (Some (place 0 1)) = Normal (12742 * y)%float.
Proof.
  intros H0 Hc Hy. unfold calculateDistance, origin, place.
  cbn [prop bind latitude longitude].
  replace (0 - 0)%float with 0%float by reflexivity.
  replace (1 - 0)%float with 1%float by reflexivity.
  replace (0 * 0.017453292519943295)%float with 0%float by reflexivity.
  replace (1 * 0.017453292519943295)%float with 0.017453292519943295%float
    by reflexivity.
  now rewrite H0, Hc, Hy.
Qed.

(** 111.19492664454764 is within half a kilometre of 111.19. *)
Lemma toR_one_degree : (Rabs (toR 111.19492664454764 - 111.19) <= 0.5)%R.
Proof.
  unfold toR.
  change (Prim2SF 111.19492664454764)
    with (S754_finite false 7824647346904287 (-46)).
  cbv iota. unfold powerRZ.
  change (Pos.to_nat 46) with 46%nat.
  assert (P : (2 ^ 46 = 70368744177664)%R) by (simpl; lra).
  rewrite P. apply Rabs_le. lra.
Qed.

(** C2, as the code has it.  [calculateDistance] is the expression
    [Formula.distance] evaluated in the engine's binary64 arithmetic, and
    the same expression over the real numbers is the haversine distance on
    a sphere of radius 6371 km (12742 is twice that).  For the reference
    pair (0, 0), (0, 1) the code returns 12742 times the arcsine the
    engine computes, which with the values an engine returns there is
    111.19492664454764, within 0.5 km of 111.19 km.  The binary64 result is
    not within a relative error of 1e-9 of the haversine distance for
    every pair: on an engine whose cosine of the angle between [origin]
    and [hair_north] is [1], the computed distance of the two is [0]. *)
Theorem calculateDistance_haversine_binary64 :
  (forall (M : MathObject) (a b : Coordinate),
     calculateDistance M (Some a) (Some b) =
     Normal (Formula.distance (Formula.binary64 M)
               (latitude a) (longitude a) (latitude b) (longitude b))) /\
  (forall lat1 lon1 lat2 lon2 : R,
     Formula.distance Formula.reals lat1 lon1 lat2 lon2 =
     Exact.haversine 6371 (Exact.radians lat1) (Exact.radians lon1)
       (Exact.radians lat2) (Exact.radians lon2)) /\
  (forall (M : MathObject) (c y : number),
     Math_cos M 0 = 1%float ->
     Math_cos M 0.017453292519943295 = c ->
     Math_asin M (Math_sqrt (0.5 - 1 / 2 + 1 * 1 * (1 - c) / 2)) = y ->
     calculateDistance M (Some origin) (Some (place 0 1)) =
     Normal (12742 * y)%float) /\
  (forall M : MathObject,
     Math_cos M 0 = 1%float ->
     Math_cos M 0.017453292519943295 = 0.9998476951563913%float ->
     Math_asin M 0.008726535498373064 = 0.008726646259970777%float ->
     calculateDistance M (Some origin) (Some (place 0 1)) =
       Normal 111.19492664454764%float /\
     (Rabs (toR 111.19492664454764 - 111.19) <= 0.5)%R) /\
  (forall M : MathObject,
     Math_cos M 0 = 1%float ->
     Math_cos M (0x1p-28 * 0.017453292519943295) = 1%float ->
     Math_asin M 0 = 0%float ->
     calculateDistance M (Some origin) (Some hair_north) = Normal 0%float).
Proof.
  split; [reflexivity|].
  split; [exact exact_is_haversine|].
  split; [exact calculateDistance_one_degree|].
  split; [|exact calculateDistance_cancels].
  intros M H0 Hc Hy. split; [|exact toR_one_degree].
  now rewrite (calculateDistance_one_degree M _ _ H0 Hc Hy).
Qed.

(** In binary64, with the stand-in [Math], the same pair comes out at
    111.19492664458596 km. *)
Example one_degree_of_longitude :
  calculateDistance smallAngle (Some origin) (Some (place 0 1)) =
  Normal 111.19492664458596%float.
Proof. vm_compute. reflexivity. Qed.

(** ** Strings *)

Lemma trimStart_nil_iff (s : jsstring) : trimStart s = [] <-> blank s = true.
Proof.
  induction s as [|c s IH]; simpl; [tauto|].
  destruct (isWhiteSpace c); simpl; [exact IH|].
  split; discriminate.
Qed.

(** What [trimStart] returns does not start with white space. *)
Lemma trimStart_head (s : jsstring) (c : N) (t : jsstring) :
  trimStart s = c :: t -> isWhiteSpace c = false.
Proof.
  induction s as [|d s IH]; simpl; [discriminate|].
  destruct (isWhiteSpace d) eqn:E; [exact IH|].
  intros [= <- _]. exact E.
Qed.

Lemma blank_rev (s : jsstring) : blank (rev s) = blank s.
Proof.
  unfold blank. induction s as [|c s IH]; simpl; [reflexivity|].
  rewrite forallb_app, IH. simpl. rewrite andb_true_r. apply andb_comm.
Qed.

(** [!s.trim()] holds exactly for the blank strings. *)
Lemma trim_falsy_iff (s : jsstring) :
  negb (truthy_string (trim s)) = true <-> blank s = true.
Proof.
  unfold trim, trimEnd. split.
  - intros H.
    assert (E : trimStart (rev (trimStart s)) = []).
    { destruct (trimStart (rev (trimStart s))) as [|c t] eqn:E; [reflexivity|].
      simpl in H. destruct (rev t ++ [c]) eqn:E'; [|discriminate H].
      now destruct (rev t). }
    apply trimStart_nil_iff in E. rewrite blank_rev in E.
    destruct (trimStart s) as [|c t] eqn:Es.
    + now apply trimStart_nil_iff.
    + apply trimStart_head in Es. simpl in E. now rewrite Es in E.
  - intros H. apply trimStart_nil_iff in H. now rewrite H.
Qed.

(** ** Counting alerts *)

Lemma vibrations_app (a b : list Effect) :
  vibrations (a ++ b) = vibrations a + vibrations b.
Proof. unfold vibrations. now rewrite filter_app, length_app. Qed.

Lemma proximityMessages_app (a b : list Effect) :
  proximityMessages (a ++ b) = proximityMessages a + proximityMessages b.
Proof. unfold proximityMessages. now rewrite filter_app, length_app. Qed.

Lemma quiet_nil : quiet [].
Proof. split; reflexivity. Qed.

Lemma quiet_app (a b : list Effect) : quiet a -> quiet b -> quiet (a ++ b).
Proof.
  intros [Ha1 Ha2] [Hb1 Hb2]. split.
  - rewrite vibrations_app. lia.
  - rewrite proximityMessages_app. lia.
Qed.

Create HintDb alerts.
#[local] Hint Resolve quiet_nil quiet_app : alerts.

(** ** The tracking screen: the distance effect *)

Section TrackingEffect.

Import HomeTracking.

Variable M : MathObject.

Lemma triggerProximityAlert_counts (dist : number) :
  vibrations (triggerProximityAlert dist) = 1 /\
  proximityMessages (triggerProximityAlert dist) = 1.
Proof. split; reflexivity. Qed.

(** The effect with both coordinates present, case by case: this is the
    transition table of the alert flag. *)
Lemma useEffect_distance_present (st : State) (l d : Coordinate) :
  location st = Some l -> destination st = Some d ->
  useEffect_distance M st =
  let dist := distanceKm M l d in
  let st1 := setDistance (Some dist) st in
  if le dist 2%float && negb (hasAlerted st) then
    Normal (setHasAlerted true st1, triggerProximityAlert dist)
  else if gt dist 2.5%float then Normal (setHasAlerted false st1, [])
  else Normal (st1, []).
Proof.
  intros Hl Hd. unfold useEffect_distance. rewrite Hl, Hd. reflexivity.
Qed.

Lemma useEffect_distance_absent (st : State) :
  location st = None \/ destination st = None ->
  useEffect_distance M st = Normal (st, []).
Proof.
  intros H. unfold useEffect_distance.
  destruct H as [-> | ->]; simpl; [reflexivity|].
  now rewrite andb_false_r.
Qed.

(** ARMED, a sample within the alert radius: fire once. *)
Lemma armed_near (st : State) (l d : Coordinate) :
  location st = Some l -> destination st = Some d ->
  hasAlerted st = false -> le (distanceKm M l d) 2%float = true ->
  useEffect_distance M st =
  Normal (setHasAlerted true (setDistance (Some (distanceKm M l d)) st),
          triggerProximityAlert (distanceKm M l d)).
Proof.
  intros Hl Hd Hf Hn. rewrite (useEffect_distance_present st l d Hl Hd).
  simpl. now rewrite Hn, Hf.
Qed.

(** FIRED, a sample within the clear radius: nothing is emitted and the
    flag stays. *)
Lemma fired_within_clear (st : State) (l d : Coordinate) :
  location st = Some l -> destination st = Some d ->
  hasAlerted st = true -> le (distanceKm M l d) 2.5%float = true ->
  useEffect_distance M st =
  Normal (setDistance (Some (distanceKm M l d)) st, []).
Proof.
  intros Hl Hd Hf Hn. rewrite (useEffect_distance_present st l d Hl Hd).
  simpl. rewrite Hf, andb_false_r.
  unfold gt. now rewrite (IEEE.leb_true_ltb_false _ _ Hn).
Qed.

(** FIRED, a sample beyond the clear radius: the flag is reset. *)
Lemma fired_beyond_clear (st : State) (l d : Coordinate) :
  location st = Some l -> destination st = Some d ->
  hasAlerted st = true -> gt (distanceKm M l d) 2.5%float = true ->
  useEffect_distance M st =
  Normal (setHasAlerted false (setDistance (Some (distanceKm M l d)) st), []).
Proof.
  intros Hl Hd Hf Hn. rewrite (useEffect_distance_present st l d Hl Hd).
  simpl. now rewrite Hf, andb_false_r, Hn.
Qed.

(** The effect never throws, keeps the coordinates, and emits either
    nothing, leaving a set flag set unless the sample is beyond the clear
    radius, or one alert, turning the flag from unset to set. *)
Lemma useEffect_distance_cases (st : State) :
  exists st' out,
    useEffect_distance M st = Normal (st', out) /\
    location st' = location st /\ destination st' = destination st /\
    isTracking st' = isTracking st /\
    locationSubscription st' = locationSubscription st /\
    searchText st' = searchText st /\
    ((quiet out /\
      (hasAlerted st' = hasAlerted st \/
       exists l d, location st = Some l /\ destination st = Some d /\
                   gt (distanceKm M l d) 2.5%float = true /\
                   hasAlerted st' = false))
     \/
     (hasAlerted st = false /\ hasAlerted st' = true /\
      vibrations out = 1 /\ proximityMessages out = 1)).
Proof.
  destruct (location st) as [l|] eqn:Hl, (destination st) as [d|] eqn:Hd.
  2-4: exists st, []; rewrite useEffect_distance_absent by (rewrite ?Hl, ?Hd; tauto);
       rewrite ?Hl, ?Hd; repeat split; auto; left; split; auto with alerts.
  rewrite (useEffect_distance_present st l d Hl Hd). cbv zeta.
  destruct (le (distanceKm M l d) 2%float && negb (hasAlerted st)) eqn:E1.
  - apply andb_prop in E1 as [_ E1]. apply negb_true_iff in E1.
    eexists _, _; split; [reflexivity|]. simpl. rewrite Hl, Hd.
    repeat split; auto; right; repeat split; auto.
  - destruct (gt (distanceKm M l d) 2.5%float) eqn:E2.
    + eexists _, _; split; [reflexivity|]. simpl. rewrite Hl, Hd.
      repeat split; auto; left; split; auto with alerts;
        right; exists l, d; auto.
    + eexists _, _; split; [reflexivity|]. simpl. rewrite Hl, Hd.
      repeat split; auto; left; split; auto with alerts.
Qed.

End TrackingEffect.

(** ** The tracking screen: sessions *)

Section TrackingSession.

Import HomeTracking.

Variable M : MathObject.

(** The tracking effect touches the subscription and, when tracking cannot
    start, [isTracking]; it requests no alert. *)
Lemma useEffect_tracking_frame (o : TrackingOutcome) (st : State) :
  let r := useEffect_tracking o st in
  location (fst r) = location st /\ destination (fst r) = destination st /\
  hasAlerted (fst r) = hasAlerted st /\ distance (fst r) = distance st /\
  searchText (fst r) = searchText st /\ quiet (snd r).
Proof.
  unfold useEffect_tracking, stopLocationTracking, startLocationTracking.
  destruct (locationSubscription st) eqn:Hs, (isTracking st) eqn:Ht,
    (destination st) eqn:Hd, o; simpl; rewrite ?Hs, ?Ht, ?Hd; simpl;
    repeat split; auto.
Qed.

(** [handleSearch] on an answer that selects nothing: the destination and
    the flag stay, no alert is requested. *)
Lemma handleSearch_not_found_frame (r : GeocodeResult) (st : State) :
  found r = false ->
  let res := handleSearch r st in
  location (fst res) = location st /\ destination (fst res) = destination st /\
  hasAlerted (fst res) = hasAlerted st /\ quiet (snd res).
Proof.
  intros Hr. unfold handleSearch, handleSearch_settled.
  destruct (negb (truthy_string (trim (searchText st)))); simpl.
  - repeat split; auto.
  - destruct r as [[|g0 rest]|]; try discriminate Hr; simpl; repeat split; auto.
Qed.

(** One event of an approach. *)
Lemma step_in_approach (o : TrackingOutcome) (ev : Event) (st : State) (d : Coordinate) :
  destination st = Some d ->
  selects ev = false -> withinClear M d ev = true ->
  exists st' out,
    step M o ev st = Normal (st', out) /\ destination st' = Some d /\
    ((quiet out /\ hasAlerted st' = hasAlerted st) \/
     (hasAlerted st = false /\ hasAlerted st' = true /\
      vibrations out = 1 /\ proximityMessages out = 1)).
Proof.
  intros Hd Hsel Hin.
  assert (Sample : forall c st0,
    location st0 = Some c -> destination st0 = Some d ->
    le (distanceKm M c d) 2.5%float = true ->
    exists st' out,
      afterRender M o false true (st0, []) = Normal (st', out) /\
      destination st' = Some d /\
      ((quiet out /\ hasAlerted st' = hasAlerted st0) \/
       (hasAlerted st0 = false /\ hasAlerted st' = true /\
        vibrations out = 1 /\ proximityMessages out = 1))).
  { intros c st0 Hl0 Hd0 Hle. unfold afterRender.
    destruct (useEffect_distance_cases M st0)
      as (st' & out & E & _ & D & _ & _ & _ & C).
    rewrite E. simpl. exists st', out. split; [reflexivity|].
    split; [congruence|].
    destruct C as [[Q [F|(l & d' & Hl & Hd' & G & _)]]|C]; auto.
    exfalso. rewrite Hl0 in Hl. rewrite Hd0 in Hd'.
    injection Hl as <-. injection Hd' as <-.
    unfold gt in G. rewrite (IEEE.leb_true_ltb_false _ _ Hle) in G. discriminate G. }
  destruct ev as [[ |c| ]|c|c|text|r| | | ]; simpl in Hsel; try discriminate Hsel.
  - eexists _, _; split; [reflexivity|]. split; [exact Hd|]. left. split; auto with alerts.
  - destruct (Sample c (useEffect_mount (Fix c) st)) as (st' & out & E & D & C);
      [reflexivity|exact Hd|exact Hin|].
    exists st', out. split; [exact E|]. split; [exact D|exact C].
  - eexists _, _; split; [reflexivity|]. split; [exact Hd|]. left. split; auto with alerts.
  - destruct (Sample c (setLocation (Some c) st)) as (st' & out & E & D & C);
      [reflexivity|exact Hd|exact Hin|].
    exists st', out. split; [exact E|]. split; [exact D|exact C].
  - eexists _, _; split; [reflexivity|]. split; [exact Hd|]. left. split; auto with alerts.
  - simpl. rewrite Hsel, andb_false_r.
    destruct (handleSearch_not_found_frame r st Hsel) as (_ & D & F & Q).
    destruct (handleSearch r st) as [st1 out1]. simpl in *.
    eexists _, _; split; [reflexivity|]. simpl. split; [congruence|].
    left. split; [|exact F]. rewrite app_nil_r. exact Q.
  - simpl. unfold toggleTracking. rewrite Hd. simpl.
    pose proof (useEffect_tracking_frame o (setIsTracking (negb (isTracking st)) st))
      as (_ & D & F & _ & _ & Q).
    destruct (useEffect_tracking o _) as [st1 out1]. simpl in *.
    eexists _, _; split; [reflexivity|]. simpl. split; [congruence|].
    left. split; [|exact F]. rewrite app_nil_r. exact Q.
  - eexists _, _; split; [reflexivity|]. split; [exact Hd|]. left. split; [|reflexivity].
    unfold centerOnLocation. destruct (location st), (mapRef_current st); auto with alerts;
      split; reflexivity.
Qed.

(** Once the flag is set, an approach requests no alert and leaves it set;
    from an unset flag it requests at most one. *)
Lemma approach_alerts (d : Coordinate) (evs : list (TrackingOutcome * Event)) :
  forall st, destination st = Some d -> approach M d evs = true ->
  exists st' out,
    run M evs st = Normal (st', out) /\ destination st' = Some d /\
    ((quiet out /\ hasAlerted st' = hasAlerted st) \/
     (hasAlerted st = false /\ hasAlerted st' = true /\
      vibrations out = 1 /\ proximityMessages out = 1)).
Proof.
  induction evs as [|[o ev] evs IH]; intros st Hd Ha.
  - exists st, []. repeat split; auto. left. split; auto with alerts.
  - simpl in Ha. apply andb_prop in Ha as [Hev Ha].
    apply andb_prop in Hev as [Hsel Hin]. apply negb_true_iff in Hsel.
    destruct (step_in_approach o ev st d Hd Hsel Hin) as (st1 & out1 & E1 & D1 & C1).
    destruct (IH st1 D1 Ha) as (st2 & out2 & E2 & D2 & C2).
    exists st2, (out1 ++ out2). simpl. rewrite E1. simpl. rewrite E2. simpl.
    split; [reflexivity|]. split; [exact D2|].
    destruct C1 as [[Q1 F1]|(F0 & F1 & V1 & P1)].
    + destruct C2 as [[Q2 F2]|(F1' & F2 & V2 & P2)].
      * left. split; [auto with alerts|congruence].
      * right. destruct Q1 as [Qv Qp].
        rewrite vibrations_app, proximityMessages_app. repeat split; try congruence; lia.
    + destruct C2 as [[[Qv Qp] F2]|(F1' & _)]; [|congruence].
      right. rewrite vibrations_app, proximityMessages_app.
      repeat split; try congruence; lia.
Qed.

End TrackingSession.

(** The tracking screen ([part_001]) against C1: during an approach to the
    destination the engine requests at most one vibration and at most one
    proximity dialog, however many positions arrive, and none at all when
    the alert had already fired. *)
Theorem tracking_one_alert_per_approach (M : MathObject) (d : Coordinate)
  (evs : list (TrackingOutcome * HomeTracking.Event)) (st : HomeTracking.State) :
  HomeTracking.destination st = Some d ->
  approach M d evs = true ->
  exists st' out,
    HomeTracking.run M evs st = Normal (st', out) /\
    vibrations out <= 1 /\ proximityMessages out <= 1 /\
    (HomeTracking.hasAlerted st = true ->
     quiet out /\ HomeTracking.hasAlerted st' = true).
Proof.
  intros Hd Ha.
  destruct (approach_alerts M d evs st Hd Ha) as (st' & out & E & _ & C).
  exists st', out. split; [exact E|].
  destruct C as [[[Qv Qp] F]|(F0 & F1 & V & P)].
  - repeat split; try lia; congruence.
  - repeat split; try lia; congruence.
Qed.

Example distances_of_the_journey :
  map (fun c => distanceKm smallAngle c target)
      [at_1_1_km; at_1_7_km; at_2_2_km; at_3_3_km] =
  [1.1119492685693821; 1.6679238987458787; 2.2238985314224218;
   3.3358477990534299]%float.
Proof. vm_compute. reflexivity. Qed.

(** [selected] is where the first fix and a tap on [target] lead. *)
Example selected_reached :
  HomeTracking.run smallAngle
    [(Watching, HomeTracking.Mount (Fix at_3_3_km));
     (Watching, HomeTracking.MapPress target)]
    HomeTracking.initialState =
  Normal (selected, [FitToCoordinates [at_3_3_km; target]]).
Proof. vm_compute. reflexivity. Qed.

(** [arrived] is where switching tracking on and a position 1.1 km from
    [target] lead from there, with the one alert of the approach. *)
Example arrived_reached :
  HomeTracking.run smallAngle
    [(Watching, HomeTracking.ToggleTracking);
     (Watching, HomeTracking.LocationUpdate at_1_1_km)]
    selected =
  Normal (arrived,
          [RequestBackgroundPermissions; WatchPositionAsync;
           Vibrate [500; 200; 500; 200; 500]%Z;
           AlertDialog "🎯 Destination Nearby!" (KmAway 1.1119492685693821)]).
Proof. vm_compute. reflexivity. Qed.

Example inbound_is_an_approach : approach smallAngle target inbound = true.
Proof. vm_compute. reflexivity. Qed.

(** The journey alerts once, at the first position within 2 km. *)
Example inbound_alerts_once :
  exists st',
    HomeTracking.run smallAngle inbound selected =
    Normal (st', [RequestBackgroundPermissions; WatchPositionAsync;
                  Vibrate [500; 200; 500; 200; 500]%Z;
                  AlertDialog "🎯 Destination Nearby!" (KmAway 1.6679238987458787);
                  AnimateToRegion at_1_1_km]) /\
    HomeTracking.hasAlerted st' = true.
Proof. eexists. split; vm_compute; reflexivity. Qed.

Lemma tracking_one_alert_per_approach_witness :
  exists st' out,
    HomeTracking.run smallAngle inbound selected = Normal (st', out) /\
    vibrations out <= 1 /\ proximityMessages out <= 1 /\
    (HomeTracking.hasAlerted selected = true ->
     quiet out /\ HomeTracking.hasAlerted st' = true).
Proof.
  apply (tracking_one_alert_per_approach smallAngle target inbound selected);
    vm_compute; reflexivity.
Defined.

(** C4: once the alert has fired, a position farther than 2.5 km from the
    destination resets the flag and requests nothing; a following position
    within 2 km then requests the alert again, the vibration and the
    "Destination Nearby" dialog with the new distance, and sets the flag. *)
Theorem tracking_rearms_beyond_clear_radius (M : MathObject)
  (o1 o2 : TrackingOutcome) (st : HomeTracking.State) (d far near : Coordinate) :
  HomeTracking.destination st = Some d ->
  HomeTracking.hasAlerted st = true ->
  gt (distanceKm M far d) 2.5 = true ->
  le (distanceKm M near d) 2 = true ->
  exists st1 st2,
    HomeTracking.step M o1 (HomeTracking.LocationUpdate far) st = Normal (st1, []) /\
    HomeTracking.hasAlerted st1 = false /\
    HomeTracking.step M o2 (HomeTracking.LocationUpdate near) st1 =
      Normal (st2, [Vibrate [500; 200; 500; 200; 500]%Z;
                    AlertDialog "🎯 Destination Nearby!"
                      (KmAway (distanceKm M near d))]) /\
    HomeTracking.hasAlerted st2 = true.
Proof.
  intros Hd Hf Hfar Hnear.
  set (s1 := HomeTracking.setLocation (Some far) st).
  set (st1 := HomeTracking.setHasAlerted false
                (HomeTracking.setDistance (Some (distanceKm M far d)) s1)).
  set (s2 := HomeTracking.setLocation (Some near) st1).
  exists st1,
    (HomeTracking.setHasAlerted true
       (HomeTracking.setDistance (Some (distanceKm M near d)) s2)).
  repeat split.
  - simpl. fold s1.
    now rewrite (fired_beyond_clear M s1 far d eq_refl Hd Hf Hfar).
  - simpl. fold s2.
    now rewrite (armed_near M s2 near d eq_refl Hd eq_refl Hnear).
Qed.

Lemma tracking_rearms_beyond_clear_radius_witness :
  exists st1 st2,
    HomeTracking.step smallAngle Watching (HomeTracking.LocationUpdate at_3_3_km)
      arrived = Normal (st1, []) /\
    HomeTracking.hasAlerted st1 = false /\
    HomeTracking.step smallAngle Watching (HomeTracking.LocationUpdate at_1_1_km) st1 =
      Normal (st2, [Vibrate [500; 200; 500; 200; 500]%Z;
                    AlertDialog "🎯 Destination Nearby!"
                      (KmAway (distanceKm smallAngle at_1_1_km target))]) /\
    HomeTracking.hasAlerted st2 = true.
Proof.
  apply (tracking_rearms_beyond_clear_radius smallAngle Watching Watching
           arrived target at_3_3_km at_1_1_km);
    vm_compute; reflexivity.
Defined.

(** The tracking screen against C6: a call of [calculateDistance] with a
    missing coordinate throws, and the distance effect never throws, in any
    state; with the location or the destination missing it does nothing at
    all.  So the function is reached only with both present. *)
Theorem tracking_distance_effect_guarded (M : MathObject) (st : HomeTracking.State) :
  (forall c1 c2, c1 = None \/ c2 = None ->
     calculateDistance M c1 c2 = Throw TypeError) /\
  (exists r, HomeTracking.useEffect_distance M st = Normal r) /\
  (truthy (HomeTracking.location st) && truthy (HomeTracking.destination st) = false ->
   HomeTracking.useEffect_distance M st = Normal (st, [])).
Proof.
  split; [|split].
  - intros c1 c2 [-> | ->];
      [apply calculateDistance_null_l | apply calculateDistance_null_r].
  - destruct (useEffect_distance_cases M st) as (st' & out & E & _).
    now exists (st', out).
  - intros H. unfold HomeTracking.useEffect_distance. now rewrite H.
Qed.

(** No event of the tracking screen ends in an uncaught exception. *)
Lemma tracking_step_normal (M : MathObject) (o : TrackingOutcome)
  (ev : HomeTracking.Event) (st : HomeTracking.State) :
  exists r, HomeTracking.step M o ev st = Normal r.
Proof.
  assert (A : forall t d r0, exists r, HomeTracking.afterRender M o t d r0 = Normal r).
  { intros t d [s out]. unfold HomeTracking.afterRender.
    destruct (if t then _ else _) as [s1 out1].
    destruct d; [|now eexists].
    destruct (useEffect_distance_cases M s1) as (st' & out' & E & _).
    rewrite E. now eexists. }
  destruct ev as [[ | | ]| | | | | | | ]; first [apply A | now eexists].
Qed.

(** ** The tracking screen: selecting, searching, clearing *)

(** The tracking screen against C5: the state has one destination field; a
    tap on the map or a search that finds a place puts the new coordinate
    in it and resets the alert flag, whatever the state was (so whatever
    the distance, and whether or not the alert had fired).  For the search
    this holds in whatever state the provider's answer arrives. *)
Theorem tracking_selection_rearms (coords g0 : Coordinate) (rest : list Coordinate)
  (closure st : HomeTracking.State) :
  let tapped := fst (HomeTracking.handleMapPress coords st) in
  let searched :=
    fst (HomeTracking.handleSearch_settled closure (Fulfilled (g0 :: rest)) st) in
  HomeTracking.destination tapped = Some coords /\
  HomeTracking.hasAlerted tapped = false /\
  HomeTracking.destination searched = Some (firstResult g0) /\
  HomeTracking.hasAlerted searched = false.
Proof. repeat split. Qed.

(** After a tap the render's distance effect treats the new destination as
    armed: within 2 km of it the alert is requested, although it had
    already fired for the old destination. *)
Lemma tracking_tap_nearby_alerts (M : MathObject) (o : TrackingOutcome)
  (coords l : Coordinate) (st : HomeTracking.State) :
  HomeTracking.location st = Some l ->
  le (distanceKm M l coords) 2 = true ->
  exists st' out,
    HomeTracking.step M o (HomeTracking.MapPress coords) st = Normal (st', out) /\
    HomeTracking.destination st' = Some coords /\
    vibrations out = 1 /\ proximityMessages out = 1.
Proof.
  intros Hl Hnear. simpl. unfold HomeTracking.afterRender.
  set (s0 := HomeTracking.setHasAlerted false
               (HomeTracking.setDestination (Some coords) st)).
  pose proof (useEffect_tracking_frame o s0) as (L & D & F & _ & _ & [Qv Qp]).
  destruct (HomeTracking.useEffect_tracking o s0) as [s1 out1]. simpl in *.
  rewrite (armed_near M s1 l coords) by congruence. simpl.
  eexists _, _. split; [reflexivity|]. simpl. split; [congruence|].
  assert (Fit : quiet (HomeTracking.fitToCoordinates (HomeTracking.location st) coords st)).
  { unfold HomeTracking.fitToCoordinates. rewrite Hl.
    destruct (HomeTracking.mapRef_current st); split; reflexivity. }
  destruct Fit as [Fv Fp].
  rewrite !vibrations_app, !proximityMessages_app, Fv, Fp, Qv, Qp.
  split; reflexivity.
Qed.

(** The tracking screen against C7: a blank query is rejected on the spot
    with the validation dialog; the state, and so the destination, is as it
    was, and [Location.geocodeAsync] is not called, whatever it would have
    answered. *)
Theorem tracking_blank_query_rejected (r : GeocodeResult) (st : HomeTracking.State) :
  blank (HomeTracking.searchText st) = true ->
  HomeTracking.handleSearch r st =
    (st, [AlertDialog "Error" (Text "Please enter a location to search")]) /\
  geocodeCalls (snd (HomeTracking.handleSearch r st)) = 0.
Proof.
  intros H. apply trim_falsy_iff in H.
  unfold HomeTracking.handleSearch. rewrite H. split; reflexivity.
Qed.

Lemma tracking_blank_query_rejected_witness :
  HomeTracking.handleSearch (Fulfilled [target])
    (HomeTracking.setSearchText [32; 9; 160]%N selected) =
    (HomeTracking.setSearchText [32; 9; 160]%N selected,
     [AlertDialog "Error" (Text "Please enter a location to search")]) /\
  geocodeCalls (snd (HomeTracking.handleSearch (Fulfilled [target])
                       (HomeTracking.setSearchText [32; 9; 160]%N selected))) = 0.
Proof.
  apply (tracking_blank_query_rejected (Fulfilled [target])
           (HomeTracking.setSearchText [32; 9; 160]%N selected)).
  reflexivity.
Defined.

(** A query that is not blank goes to the provider, once. *)
Lemma tracking_query_sent (r : GeocodeResult) (st : HomeTracking.State) :
  blank (HomeTracking.searchText st) = false ->
  exists out,
    snd (HomeTracking.handleSearch r st) =
      GeocodeAsync (HomeTracking.searchText st) :: out /\
    geocodeCalls out = 0.
Proof.
  intros H. unfold HomeTracking.handleSearch.
  destruct (negb (truthy_string (trim (HomeTracking.searchText st)))) eqn:E.
  - apply trim_falsy_iff in E. congruence.
  - unfold HomeTracking.handleSearch_settled, HomeTracking.fitToCoordinates.
    destruct r as [[|g0 rest]|]; simpl; eexists; split; try reflexivity.
    destruct (HomeTracking.location st); [|reflexivity].
    destruct (HomeTracking.mapRef_current _); reflexivity.
Qed.

(** The tracking screen against C8: an empty result array is reported by
    the "Not Found" dialog, a rejected request by the "Error" dialog, which
    differ; in both cases the destination (and the alert flag) is the one
    of the state the answer arrives in. *)
Theorem tracking_not_found_differs_from_failure (closure st : HomeTracking.State) :
  let notFound := HomeTracking.handleSearch_settled closure (Fulfilled []) st in
  let failed := HomeTracking.handleSearch_settled closure Rejected st in
  snd notFound =
    [AlertDialog "Not Found" (Text "Location not found. Please try again.")] /\
  snd failed =
    [AlertDialog "Error" (Text "Failed to search location. Please try again.")] /\
  snd notFound <> snd failed /\
  HomeTracking.destination (fst notFound) = HomeTracking.destination st /\
  HomeTracking.destination (fst failed) = HomeTracking.destination st /\
  HomeTracking.hasAlerted (fst notFound) = HomeTracking.hasAlerted st /\
  HomeTracking.hasAlerted (fst failed) = HomeTracking.hasAlerted st.
Proof. repeat split. simpl. discriminate. Qed.

(** C10: [clearDestination] sets, in one state update, the destination and
    the displayed distance to null, tracking to off, the alert flag to
    not fired and the search text to the empty string, and leaves the rest
    of the state alone; the render that follows requests no alert and
    changes none of these. *)
Theorem tracking_clearDestination_idle (M : MathObject) (o : TrackingOutcome)
  (st : HomeTracking.State) :
  let st' := HomeTracking.clearDestination st in
  (HomeTracking.destination st' = None /\
   HomeTracking.distance st' = None /\
   HomeTracking.isTracking st' = false /\
   HomeTracking.hasAlerted st' = false /\
   HomeTracking.searchText st' = [] /\
   HomeTracking.location st' = HomeTracking.location st /\
   HomeTracking.errorMsg st' = HomeTracking.errorMsg st /\
   HomeTracking.isLoading st' = HomeTracking.isLoading st) /\
  exists st'' out,
    HomeTracking.step M o HomeTracking.ClearDestination st = Normal (st'', out) /\
    quiet out /\
    HomeTracking.setLocationSubscription (HomeTracking.locationSubscription st) st'' = st' /\
    (HomeTracking.isTracking st = true \/ HomeTracking.destination st <> None ->
     HomeTracking.locationSubscription st'' = false).
Proof.
  split; [repeat split|].
  unfold HomeTracking.step, HomeTracking.afterRender,
    HomeTracking.useEffect_tracking, HomeTracking.stopLocationTracking,
    HomeTracking.useEffect_distance.
  destruct st as [l d e s ld di t h sub].
  destruct d as [d|], t, sub; simpl; rewrite ?andb_false_r;
    eexists _, _; (split; [reflexivity|]); simpl;
    repeat split; auto; intros [H|H]; congruence.
Qed.

(** ** The snapshot screen ([src/Home.js]) *)

(** The distance effect has no memory: in range of either destination it
    requests the alert on every run. *)
Lemma home_effect_memoryless (M : MathObject) (st : Home.State) (l m s : Coordinate) :
  Home.location st = Some l -> Home.mcoords st = Some m -> Home.scoords st = Some s ->
  le (distanceKm M l m) 2 || le (distanceKm M l s) 2 = true ->
  Home.useEffect_distance M st =
  Normal [Vibrate [1000; 500; 1000]%Z; GlobalAlert "Da Mandaaaa, STHALAM EHTARAYI!!!!!"].
Proof.
  intros Hl Hm Hs H. unfold Home.useEffect_distance.
  rewrite Hl, Hm, Hs, !calculateDistance_objects. cbn [truthy andb bind].
  now rewrite H.
Qed.

(** C1 on [Home.js]: the user does not move and the searched destination
    does not change, and the alert is requested twice, once per tap. *)
Lemma home_alerts_again_while_still :
  exists st',
    Home.run smallAngle standing_still Home.initialState =
    Normal (st', [GeocodeAsync kochi;
                  Vibrate [1000; 500; 1000]%Z;
                  GlobalAlert "Da Mandaaaa, STHALAM EHTARAYI!!!!!";
                  Vibrate [1000; 500; 1000]%Z;
                  GlobalAlert "Da Mandaaaa, STHALAM EHTARAYI!!!!!"]) /\
    Home.location st' = Some at_1_1_km /\ Home.scoords st' = Some target.
Proof. eexists. repeat split; vm_compute; reflexivity. Qed.

(** C5 on [Home.js]: a search and then a tap leave two destinations set,
    the searched one and the tapped one; neither replaces the other. *)
Lemma home_keeps_two_destinations :
  exists st',
    Home.run smallAngle
      [Home.ChangeText kochi; Home.PressSearch (Fulfilled [target]);
       Home.MapPress at_3_3_km]
      Home.initialState = Normal (st', [GeocodeAsync kochi]) /\
    Home.scoords st' = Some target /\ Home.mcoords st' = Some at_3_3_km.
Proof. eexists. repeat split. Qed.

(** With a location and a tapped destination but no searched one, the
    distance effect calls [calculateDistance(location, scoords)] on the
    missing [scoords] and throws. *)
Lemma home_effect_throws (M : MathObject) (st : Home.State) :
  truthy (Home.location st) = true -> truthy (Home.mcoords st) = true ->
  Home.scoords st = None ->
  Home.useEffect_distance M st = Throw TypeError.
Proof.
  intros Hl Hm Hs. unfold Home.useEffect_distance. rewrite Hl, Hm, Hs.
  destruct (Home.location st), (Home.mcoords st); try discriminate. reflexivity.
Qed.

(** C6 on [Home.js]: the first fix, then a tap on the map, and the distance
    effect ends in a TypeError. *)
Lemma home_tap_without_search_throws :
  Home.run smallAngle [Home.Mount (Fix at_3_3_km); Home.MapPress target]
    Home.initialState = Throw TypeError.
Proof. vm_compute. reflexivity. Qed.

(** [geocode] always calls the provider, with the text as it is, and
    requests nothing else. *)
Lemma home_geocode_effects (r : GeocodeResult) (st : Home.State) :
  snd (Home.geocode r st) = [GeocodeAsync (Home.searchtext st)].
Proof. destruct r; reflexivity. Qed.

(** C7 on [Home.js]: the Search button with the empty text, and with white
    space only, calls the provider. *)
Lemma home_blank_query_sent :
  snd (Home.geocode Rejected Home.initialState) = [GeocodeAsync []] /\
  snd (Home.geocode Rejected (Home.handleSearch [32; 32]%N Home.initialState)) =
    [GeocodeAsync [32; 32]%N].
Proof. split; reflexivity. Qed.

(** C8 on [Home.js]: an empty result array removes the searched
    destination, and what the screen requests is what it requests when the
    provider fails: the call and no message. *)
Lemma home_not_found_clears_destination :
  let st := Home.setScoords (Some target) (Home.handleSearch kochi Home.initialState) in
  Home.scoords st = Some target /\
  Home.scoords (fst (Home.geocode (Fulfilled []) st)) = None /\
  snd (Home.geocode (Fulfilled []) st) = [GeocodeAsync kochi] /\
  snd (Home.geocode Rejected st) = snd (Home.geocode (Fulfilled []) st).
Proof. repeat split. Qed.

(** ** The tracking screen and the specification's state machine *)

(** With a position known, the distance effect takes the step of the
    specification's machine: the states correspond, and the alert (one
    vibration, one dialog) is requested exactly when the machine emits. *)
Theorem tracking_effect_refines_machine (M : MathObject) (st : HomeTracking.State)
  (l : Coordinate) :
  HomeTracking.location st = Some l ->
  exists st' out,
    HomeTracking.useEffect_distance M st = Normal (st', out) /\
    let dist := match HomeTracking.destination st with
                | Some d => distanceKm M l d
                | None => nan
                end in
    alertState st' = fst (spec_sample (alertState st) dist) /\
    out = (if snd (spec_sample (alertState st) dist)
           then [Vibrate [500; 200; 500; 200; 500]%Z;
                 AlertDialog "🎯 Destination Nearby!" (KmAway dist)]
           else []).
Proof.
  intros Hl. unfold alertState.
  destruct (HomeTracking.destination st) as [d|] eqn:Hd.
  - rewrite (useEffect_distance_present M st l d Hl Hd). cbv zeta.
    destruct (HomeTracking.hasAlerted st) eqn:Hf; simpl.
    + rewrite andb_false_r.
      destruct (gt (distanceKm M l d) 2.5) eqn:G; simpl;
        eexists _, _; (split; [reflexivity|]); simpl; rewrite Hd, ?Hf; split; reflexivity.
    + rewrite andb_true_r.
      destruct (le (distanceKm M l d) 2) eqn:L; simpl.
      * eexists _, _; (split; [reflexivity|]); simpl; rewrite Hd; split; reflexivity.
      * destruct (gt (distanceKm M l d) 2.5) eqn:G; simpl;
          eexists _, _; (split; [reflexivity|]); simpl; rewrite Hd, ?Hf; split; reflexivity.
  - rewrite useEffect_distance_absent by tauto.
    exists st, []. split; [reflexivity|]. simpl. rewrite Hd. split; reflexivity.
Qed.

Lemma tracking_effect_refines_machine_witness :
  exists st' out,
    HomeTracking.useEffect_distance smallAngle
      (HomeTracking.setLocation (Some at_1_7_km) selected) = Normal (st', out) /\
    alertState st' = FIRED /\
    out = [Vibrate [500; 200; 500; 200; 500]%Z;
           AlertDialog "🎯 Destination Nearby!"
             (KmAway (distanceKm smallAngle at_1_7_km target))].
Proof.
  destruct (tracking_effect_refines_machine smallAngle
              (HomeTracking.setLocation (Some at_1_7_km) selected) at_1_7_km eq_refl)
    as (st' & out & E & A & O).
  exists st', out. split; [exact E|]. split; [exact A|exact O].
Defined.

(** Tracking cannot be switched on without a destination: the handler
    shows the "No Destination" dialog and changes nothing, and no effect of
    the render runs. *)
Theorem tracking_toggle_needs_destination (M : MathObject) (o : TrackingOutcome)
  (st : HomeTracking.State) :
  HomeTracking.destination st = None ->
  HomeTracking.step M o HomeTracking.ToggleTracking st =
  Normal (st, [AlertDialog "No Destination" (Text "Please select a destination first")]).
Proof.
  intros Hd. unfold HomeTracking.step, HomeTracking.toggleTracking,
    HomeTracking.afterRender. rewrite Hd. reflexivity.
Qed.

Lemma tracking_toggle_needs_destination_witness :
  HomeTracking.step smallAngle Watching HomeTracking.ToggleTracking
    HomeTracking.initialState =
  Normal (HomeTracking.initialState,
          [AlertDialog "No Destination" (Text "Please select a destination first")]).
Proof.
  apply (tracking_toggle_needs_destination smallAngle Watching HomeTracking.initialState).
  reflexivity.
Defined.

(** ** The tracking screen: what every session keeps *)

Section TrackingInvariant.

Import HomeTracking.

Variable M : MathObject.

(** The distance effect, run on a state whose displayed distance and flag
    are clear when a coordinate is missing, leaves a state that shows the
    current distance and has the flag set only within the clear radius; it
    touches nothing of tracking. *)
Lemma useEffect_distance_consistent (st0 : State) :
  (truthy (location st0) && truthy (destination st0) = false ->
   distance st0 = None /\ hasAlerted st0 = false) ->
  exists st' out,
    useEffect_distance M st0 = Normal (st', out) /\
    location st' = location st0 /\ destination st' = destination st0 /\
    isTracking st' = isTracking st0 /\
    locationSubscription st' = locationSubscription st0 /\
    errorMsg st' = errorMsg st0 /\
    distanceShown M st' /\ firedWithinClear M st'.
Proof.
  intros Hmiss. unfold distanceShown, firedWithinClear.
  destruct (location st0) as [l|] eqn:Hl; destruct (destination st0) as [d|] eqn:Hd.
  2-4: destruct Hmiss as [D F]; [reflexivity|];
       rewrite useEffect_distance_absent by (rewrite ?Hl, ?Hd; tauto);
       exists st0, []; rewrite ?Hl, ?Hd; repeat split; auto; congruence.
  clear Hmiss. rewrite (useEffect_distance_present M st0 l d Hl Hd). cbv zeta.
  destruct (le (distanceKm M l d) 2) eqn:L; destruct (hasAlerted st0) eqn:F; simpl.
  - destruct (gt (distanceKm M l d) 2.5) eqn:G;
      eexists _, _; (split; [reflexivity|]); simpl; rewrite Hl, Hd;
      repeat split; auto; try congruence.
    intros _. exists l, d. auto.
  - eexists _, _; (split; [reflexivity|]); simpl; rewrite Hl, Hd.
    repeat split; auto. intros _. exists l, d. repeat split.
    apply (IEEE.leb_2_not_gt_2_5 _ L).
  - destruct (gt (distanceKm M l d) 2.5) eqn:G;
      eexists _, _; (split; [reflexivity|]); simpl; rewrite Hl, Hd;
      repeat split; auto; try congruence.
    intros _. exists l, d. auto.
  - destruct (gt (distanceKm M l d) 2.5) eqn:G;
      eexists _, _; (split; [reflexivity|]); simpl; rewrite Hl, Hd, ?F;
      repeat split; auto; congruence.
Qed.

(** After the tracking effect a subscription is held only if tracking is
    on and there is a destination. *)
Lemma useEffect_tracking_bound (o : TrackingOutcome) (st0 : State) :
  let r := useEffect_tracking o st0 in
  (locationSubscription (fst r) = true ->
   isTracking (fst r) = true /\ destination (fst r) <> None) /\
  (isTracking (fst r) = true -> isTracking st0 = true) /\
  errorMsg (fst r) = errorMsg st0.
Proof.
  unfold useEffect_tracking, stopLocationTracking, startLocationTracking.
  destruct (locationSubscription st0) eqn:Hs, (isTracking st0) eqn:Ht,
    (destination st0) eqn:Hd, o; simpl; rewrite ?Hs, ?Ht, ?Hd; simpl;
    repeat split; auto; try discriminate; congruence.
Qed.

(** The effects of a render, run on a state the handler left in order. *)
Lemma afterRender_consistent (o : TrackingOutcome) (t d : bool) (st0 : State)
  (out0 : list Effect) :
  (isTracking st0 = true -> destination st0 <> None) ->
  (t = false -> locationSubscription st0 = true -> isTracking st0 = true) ->
  (if d
   then truthy (location st0) && truthy (destination st0) = false ->
        distance st0 = None /\ hasAlerted st0 = false
   else distanceShown M st0 /\ firedWithinClear M st0) ->
  exists st' out,
    afterRender M o t d (st0, out0) = Normal (st', out) /\
    consistent M st' /\ (errorMsg st0 <> None -> errorMsg st' <> None).
Proof.
  intros H3 H4 Hd. unfold afterRender.
  assert (T : exists st1 out1,
    (if t then useEffect_tracking o st0 else (st0, [])) = (st1, out1) /\
    location st1 = location st0 /\ destination st1 = destination st0 /\
    hasAlerted st1 = hasAlerted st0 /\ distance st1 = distance st0 /\
    errorMsg st1 = errorMsg st0 /\ trackingBound st1).
  { destruct t.
    - pose proof (useEffect_tracking_frame o st0) as (L & D & F & Di & _ & _).
      pose proof (useEffect_tracking_bound o st0) as (B1 & B2 & E).
      destruct (useEffect_tracking o st0) as [st1 out1]. simpl in *.
      exists st1, out1. repeat split; auto.
      + intros Ht. rewrite D. auto.
      + intros Hs. apply B1, Hs.
    - exists st0, []. repeat split; auto. }
  destruct T as (st1 & out1 & -> & L & D & F & Di & E & B).
  destruct d.
  - destruct (useEffect_distance_consistent st1)
      as (st' & out & Eq & L' & D' & T' & S' & E' & I1 & I2).
    { rewrite L, D, Di, F. exact Hd. }
    rewrite Eq. simpl. exists st', (out0 ++ out1 ++ out).
    split; [reflexivity|]. split; [|congruence].
    split; [exact I1|]. split; [exact I2|].
    unfold trackingBound in *. rewrite D', T', S'. exact B.
  - simpl. exists st1, (out0 ++ out1 ++ []).
    split; [reflexivity|]. split; [|congruence].
    destruct Hd as [I1 I2]. unfold consistent, distanceShown, firedWithinClear in *.
    rewrite L, D, Di, F. auto.
Qed.

(** Every event takes a consistent state to a consistent state (and to no
    exception), and never clears the error message. *)
Lemma step_consistent (o : TrackingOutcome) (ev : Event) (st : State) :
  consistent M st ->
  exists st' out,
    step M o ev st = Normal (st', out) /\
    consistent M st' /\ (errorMsg st <> None -> errorMsg st' <> None).
Proof.
  intros (I1 & I2 & I3 & I4).
  assert (Miss : destination st = None -> distance st = None /\ hasAlerted st = false).
  { intros Hd. split.
    - unfold distanceShown in I1. rewrite I1, Hd. now destruct (location st).
    - destruct (hasAlerted st) eqn:F; [|reflexivity].
      destruct (I2 F) as (l & d & _ & Hd' & _). congruence. }
  assert (NoLoc : location st = None -> distance st = None).
  { intros Hl. unfold distanceShown in I1. now rewrite I1, Hl. }
  assert (Same : forall st0 (out0 : list Effect),
    location st0 = location st -> destination st0 = destination st ->
    distance st0 = distance st -> hasAlerted st0 = hasAlerted st ->
    isTracking st0 = isTracking st ->
    locationSubscription st0 = locationSubscription st ->
    (errorMsg st <> None -> errorMsg st0 <> None) ->
    exists st' out, Normal (st0, out0) = Normal (st', out) /\
      consistent M st' /\ (errorMsg st <> None -> errorMsg st' <> None)).
  { intros st0 out0 L D Di F T S E. exists st0, out0.
    split; [reflexivity|]. split; [|exact E].
    unfold consistent, distanceShown, firedWithinClear, trackingBound.
    rewrite L, D, Di, F, T, S. auto. }
  assert (Sample : forall c st0,
    location st0 = Some c -> destination st0 = destination st ->
    distance st0 = distance st -> hasAlerted st0 = hasAlerted st ->
    isTracking st0 = isTracking st ->
    locationSubscription st0 = locationSubscription st ->
    (errorMsg st <> None -> errorMsg st0 <> None) ->
    exists st' out, afterRender M o false true (st0, []) = Normal (st', out) /\
      consistent M st' /\ (errorMsg st <> None -> errorMsg st' <> None)).
  { intros c st0 L D Di F T S E.
    destruct (afterRender_consistent o false true st0 [])
      as (st' & out & Eq & C & E').
    - rewrite T, D. exact I3.
    - intros _. rewrite S, T. exact I4.
    - rewrite L, D, Di, F. simpl. intros Hd.
      destruct (destination st); [discriminate|]. now apply Miss.
    - exists st', out. auto. }
  assert (Select : forall c st0 out0,
    location st0 = location st -> destination st0 = Some c ->
    distance st0 = distance st -> hasAlerted st0 = false ->
    isTracking st0 = isTracking st ->
    (errorMsg st <> None -> errorMsg st0 <> None) ->
    exists st' out, afterRender M o true true (st0, out0) = Normal (st', out) /\
      consistent M st' /\ (errorMsg st <> None -> errorMsg st' <> None)).
  { intros c st0 out0 L D Di F T E.
    destruct (afterRender_consistent o true true st0 out0)
      as (st' & out & Eq & C & E').
    - rewrite D. discriminate.
    - discriminate.
    - rewrite L, D, Di, F. rewrite andb_true_r.
      destruct (location st) eqn:Hl; [discriminate|]. intros _. auto.
    - exists st', out. auto. }
  destruct ev as [[ |c| ]|c|c|text|r| | | ].
  - apply Same; try reflexivity. simpl. discriminate.
  - apply (Sample c); auto.
  - apply Same; auto.
  - apply (Sample c); auto.
  - apply (Select c); auto.
  - apply Same; auto.
  - unfold step, handleSearch, handleSearch_settled.
    destruct (truthy_string (trim (searchText st))); cbn [negb andb].
    + destruct r as [[|g0 rest]|]; cbn [found].
      * apply Same; auto.
      * apply (Select (firstResult g0)); auto.
      * apply Same; auto.
    + apply Same; auto.
  - unfold step.
    destruct (afterRender_consistent o
                (truthy (destination st) || isTracking st)
                (truthy (destination st)) (clearDestination st) [])
      as (st' & out & Eq & C & E').
    + discriminate.
    + simpl. intros Ht Hs. apply orb_false_elim in Ht as [_ Ht].
      rewrite (I4 Hs) in Ht. discriminate.
    + destruct (truthy (destination st)); simpl.
      * auto.
      * unfold distanceShown, firedWithinClear. simpl.
        split; [now destruct (location st)|discriminate].
    + exists st', out. auto.
  - unfold step, toggleTracking.
    destruct (destination st) as [d|] eqn:Hd; simpl.
    + destruct (afterRender_consistent o true false
                  (setIsTracking (negb (isTracking st)) st) [])
        as (st' & out & Eq & C & E').
      * simpl. rewrite Hd. discriminate.
      * discriminate.
      * split; [exact I1|exact I2].
      * exists st', out. auto.
    + apply Same; auto.
  - apply Same; auto.
Qed.

(** So does every session. *)
Lemma run_consistent (evs : list (TrackingOutcome * Event)) :
  forall st, consistent M st ->
  exists st' out,
    run M evs st = Normal (st', out) /\
    consistent M st' /\ (errorMsg st <> None -> errorMsg st' <> None).
Proof.
  induction evs as [|[o ev] evs IH]; intros st C.
  - exists st, []. auto.
  - destruct (step_consistent o ev st C) as (st1 & out1 & E1 & C1 & M1).
    destruct (IH st1 C1) as (st2 & out2 & E2 & C2 & M2).
    exists st2, (out1 ++ out2). simpl. rewrite E1. simpl. rewrite E2. auto.
Qed.

Lemma initialState_consistent : consistent M initialState.
Proof.
  repeat split; simpl; discriminate.
Qed.

End TrackingInvariant.

(** In every session of the tracking screen, from the initial state and
    with any answers of the location provider, no event ends in an
    exception, and the distance the screen shows is the distance from the
    current location to the current destination, null while either is
    missing. *)
Theorem tracking_session_shows_current_distance (M : MathObject)
  (evs : list (TrackingOutcome * HomeTracking.Event)) :
  exists st out,
    HomeTracking.run M evs HomeTracking.initialState = Normal (st, out) /\
    HomeTracking.distance st =
    match HomeTracking.location st, HomeTracking.destination st with
    | Some l, Some d => Some (distanceKm M l d)
    | _, _ => None
    end.
Proof.
  destruct (run_consistent M evs _ (initialState_consistent M))
    as (st & out & E & (I1 & _) & _).
  exists st, out. split; [exact E|exact I1].
Qed.

(** In every session of the tracking screen, tracking is on only while a
    destination is selected, and a position subscription is held only
    while tracking is on. *)
Theorem tracking_session_tracks_a_destination (M : MathObject)
  (evs : list (TrackingOutcome * HomeTracking.Event)) :
  exists st out,
    HomeTracking.run M evs HomeTracking.initialState = Normal (st, out) /\
    (HomeTracking.isTracking st = true -> HomeTracking.destination st <> None) /\
    (HomeTracking.locationSubscription st = true ->
     HomeTracking.isTracking st = true).
Proof.
  destruct (run_consistent M evs _ (initialState_consistent M))
    as (st & out & E & (_ & _ & I3) & _).
  exists st, out. split; [exact E|exact I3].
Qed.

(** The alert flag never outlives its cause: in a state a session has
    reached, with the location beyond the clear radius of the destination,
    the next position within the alert radius requests the alert. *)
Theorem tracking_arrival_is_announced (M : MathObject)
  (evs : list (TrackingOutcome * HomeTracking.Event))
  (st : HomeTracking.State) (out : list Effect) (o : TrackingOutcome)
  (l d near : Coordinate) :
  HomeTracking.run M evs HomeTracking.initialState = Normal (st, out) ->
  HomeTracking.location st = Some l ->
  HomeTracking.destination st = Some d ->
  gt (distanceKm M l d) 2.5 = true ->
  le (distanceKm M near d) 2 = true ->
  exists st',
    HomeTracking.step M o (HomeTracking.LocationUpdate near) st =
      Normal (st', [Vibrate [500; 200; 500; 200; 500]%Z;
                    AlertDialog "🎯 Destination Nearby!"
                      (KmAway (distanceKm M near d))]) /\
    HomeTracking.hasAlerted st' = true.
Proof.
  intros Hrun Hl Hd Hfar Hnear.
  destruct (run_consistent M evs _ (initialState_consistent M))
    as (st0 & out0 & E & (_ & I2 & _) & _).
  rewrite Hrun in E. injection E as <- <-.
  assert (F : HomeTracking.hasAlerted st = false).
  { destruct (HomeTracking.hasAlerted st) eqn:F; [|reflexivity].
    destruct (I2 F) as (l' & d' & Hl' & Hd' & G). congruence. }
  set (s1 := HomeTracking.setLocation (Some near) st).
  exists (HomeTracking.setHasAlerted true
            (HomeTracking.setDistance (Some (distanceKm M near d)) s1)).
  split; [|reflexivity].
  simpl. fold s1. now rewrite (armed_near M s1 near d eq_refl Hd F Hnear).
Qed.

Lemma tracking_arrival_is_announced_witness :
  exists st',
    HomeTracking.step smallAngle Watching (HomeTracking.LocationUpdate at_1_1_km)
      selected =
      Normal (st', [Vibrate [500; 200; 500; 200; 500]%Z;
                    AlertDialog "🎯 Destination Nearby!"
                      (KmAway (distanceKm smallAngle at_1_1_km target))]) /\
    HomeTracking.hasAlerted st' = true.
Proof.
  apply (tracking_arrival_is_announced smallAngle
           [(Watching, HomeTracking.Mount (Fix at_3_3_km));
            (Watching, HomeTracking.MapPress target)]
           selected [FitToCoordinates [at_3_3_km; target]] Watching
           at_3_3_km target at_1_1_km);
    vm_compute; reflexivity.
Defined.

(** ** The tracking screen: what one event does *)

Section TrackingEvents.

Import HomeTracking.

Variable M : MathObject.

Lemma fitToCoordinates_quiet (l : option Coordinate) (c : Coordinate) (st : State) :
  quiet (fitToCoordinates l c st).
Proof.
  unfold fitToCoordinates. destruct l; [|split; reflexivity].
  destruct (mapRef_current st); split; reflexivity.
Qed.

(** [!searchText.trim()] in terms of [blank]. *)
Lemma trim_truthy (s : jsstring) : truthy_string (trim s) = negb (blank s).
Proof.
  destruct (blank s) eqn:B.
  - apply trim_falsy_iff in B. now apply negb_true_iff in B.
  - destruct (truthy_string (trim s)) eqn:T; [reflexivity|].
    assert (H : negb (truthy_string (trim s)) = true) by now rewrite T.
    apply trim_falsy_iff in H. congruence.
Qed.

(** The render after a selection, with a location known: the distance
    effect finds the flag reset. *)
Lemma afterRender_selected (o : TrackingOutcome) (st0 : State) (out0 : list Effect)
  (l c : Coordinate) :
  location st0 = Some l -> destination st0 = Some c -> hasAlerted st0 = false ->
  quiet out0 ->
  exists st' out,
    afterRender M o true true (st0, out0) = Normal (st', out) /\
    destination st' = Some c /\
    distance st' = Some (distanceKm M l c) /\
    hasAlerted st' = le (distanceKm M l c) 2 /\
    vibrations out = (if le (distanceKm M l c) 2 then 1 else 0) /\
    proximityMessages out = (if le (distanceKm M l c) 2 then 1 else 0).
Proof.
  intros Hl Hd Hf [Qv Qp]. unfold afterRender.
  pose proof (useEffect_tracking_frame o st0) as (L & D & F & _ & _ & [Tv Tp]).
  destruct (useEffect_tracking o st0) as [s1 out1]. simpl in *.
  rewrite (useEffect_distance_present M s1 l c) by congruence. cbv zeta.
  rewrite F, Hf. simpl. rewrite andb_true_r.
  destruct (le (distanceKm M l c) 2) eqn:Le.
  - simpl. eexists _, _. split; [reflexivity|]. simpl.
    rewrite !vibrations_app, !proximityMessages_app, Qv, Qp, Tv, Tp.
    repeat split; auto; congruence.
  - destruct (gt (distanceKm M l c) 2.5); simpl;
      (eexists _, _; split; [reflexivity|]); simpl;
      rewrite !vibrations_app, !proximityMessages_app, Qv, Qp, Tv, Tp;
      repeat split; auto; congruence.
Qed.

End TrackingEvents.

(** A tap on the map with the location known: the tapped coordinate
    replaces the destination, the displayed distance is the distance to
    it, and the alert is requested (one vibration, one dialog) exactly
    when that distance is within 2 km, whether or not it had already fired
    for the previous destination.  ([handleMapPress] runs inside the press
    event, so its two state updates reach the effects in one render.) *)
Theorem tracking_tap_selects_and_alerts (M : MathObject) (o : TrackingOutcome)
  (coords l : Coordinate) (st : HomeTracking.State) :
  HomeTracking.location st = Some l ->
  exists st' out,
    HomeTracking.step M o (HomeTracking.MapPress coords) st = Normal (st', out) /\
    HomeTracking.destination st' = Some coords /\
    HomeTracking.distance st' = Some (distanceKm M l coords) /\
    HomeTracking.hasAlerted st' = le (distanceKm M l coords) 2 /\
    vibrations out = (if le (distanceKm M l coords) 2 then 1 else 0) /\
    proximityMessages out = (if le (distanceKm M l coords) 2 then 1 else 0).
Proof.
  intros Hl. unfold HomeTracking.step, HomeTracking.handleMapPress.
  apply afterRender_selected; auto. apply fitToCoordinates_quiet.
Qed.

Lemma tracking_tap_selects_and_alerts_witness :
  exists st' out,
    HomeTracking.step smallAngle Watching (HomeTracking.MapPress at_1_7_km)
      arrived = Normal (st', out) /\
    HomeTracking.destination st' = Some at_1_7_km /\
    HomeTracking.distance st' = Some (distanceKm smallAngle at_1_1_km at_1_7_km) /\
    HomeTracking.hasAlerted st' = le (distanceKm smallAngle at_1_1_km at_1_7_km) 2 /\
    vibrations out = (if le (distanceKm smallAngle at_1_1_km at_1_7_km) 2 then 1 else 0) /\
    proximityMessages out =
      (if le (distanceKm smallAngle at_1_1_km at_1_7_km) 2 then 1 else 0).
Proof.
  apply (tracking_tap_selects_and_alerts smallAngle Watching at_1_7_km at_1_1_km
           arrived).
  reflexivity.
Defined.

(** There the tap is 0.56 km from the location, and the alert fires again
    although [hasAlerted] was set. *)
Example tap_near_after_alert :
  le (distanceKm smallAngle at_1_1_km at_1_7_km) 2 = true /\
  HomeTracking.hasAlerted arrived = true.
Proof. split; vm_compute; reflexivity. Qed.

(** A search for a text that is not blank which finds nothing, or fails:
    the provider is called with the text, the matching dialog is shown,
    and the whole state stays as it was except that [isLoading] ends
    false; no effect of the render runs. *)
Theorem tracking_search_miss_step (M : MathObject) (o : TrackingOutcome)
  (r : GeocodeResult) (st : HomeTracking.State) :
  blank (HomeTracking.searchText st) = false ->
  HomeTracking.found r = false ->
  HomeTracking.step M o (HomeTracking.SubmitSearch r) st =
  Normal (HomeTracking.setIsLoading false st,
          [GeocodeAsync (HomeTracking.searchText st);
           match r with
           | Rejected =>
               AlertDialog "Error" (Text "Failed to search location. Please try again.")
           | Fulfilled _ =>
               AlertDialog "Not Found" (Text "Location not found. Please try again.")
           end]).
Proof.
  intros B Hr. unfold HomeTracking.step, HomeTracking.handleSearch.
  rewrite trim_truthy, B, Hr.
  destruct r as [[|g0 rest]|]; try discriminate Hr; reflexivity.
Qed.

Lemma tracking_search_miss_step_witness :
  HomeTracking.step smallAngle Watching (HomeTracking.SubmitSearch (Fulfilled []))
    (HomeTracking.setSearchText kochi selected) =
  Normal (HomeTracking.setIsLoading false (HomeTracking.setSearchText kochi selected),
          [GeocodeAsync kochi;
           AlertDialog "Not Found" (Text "Location not found. Please try again.")]).
Proof.
  apply (tracking_search_miss_step smallAngle Watching (Fulfilled [])
           (HomeTracking.setSearchText kochi selected));
    reflexivity.
Defined.

(** ** The tracking screen: what a session requests *)

Section TrackingRequests.

Import HomeTracking.

Variable M : MathObject.

Lemma paired_app (out1 out2 : list Effect) :
  paired out1 -> paired out2 -> paired (out1 ++ out2).
Proof.
  intros [C1 W1] [C2 W2]. split.
  - rewrite vibrations_app, proximityMessages_app. congruence.
  - rewrite forallb_app, W1, W2. reflexivity.
Qed.

Lemma useEffect_tracking_paired (o : TrackingOutcome) (st : State) :
  paired (snd (useEffect_tracking o st)) /\
  existsb isMapEffect (snd (useEffect_tracking o st)) = false /\
  geocodeCalls (snd (useEffect_tracking o st)) = 0 /\
  existsb isNoDestinationDialog (snd (useEffect_tracking o st)) = false.
Proof.
  unfold useEffect_tracking, stopLocationTracking, startLocationTracking.
  destruct (locationSubscription st) eqn:Hs, (isTracking st) eqn:Ht,
    (destination st) eqn:Hd, o; simpl; rewrite ?Hs, ?Ht, ?Hd; simpl;
    repeat split; reflexivity.
Qed.

Lemma useEffect_distance_paired (st : State) :
  exists st' out,
    useEffect_distance M st = Normal (st', out) /\
    errorMsg st' = errorMsg st /\ searchText st' = searchText st /\
    paired out /\ existsb isMapEffect out = false /\ geocodeCalls out = 0 /\
    existsb isNoDestinationDialog out = false.
Proof.
  destruct (location st) as [l|] eqn:Hl; [destruct (destination st) as [d|] eqn:Hd|].
  2,3: rewrite useEffect_distance_absent by tauto; exists st, [];
       repeat split; reflexivity.
  rewrite (useEffect_distance_present M st l d Hl Hd). cbv zeta.
  destruct (le (distanceKm M l d) 2) eqn:Le; destruct (hasAlerted st);
    cbn [negb andb].
  2: { eexists _, _. split; [reflexivity|]. repeat split; try reflexivity.
       simpl. now rewrite Le. }
  all: destruct (gt (distanceKm M l d) 2.5);
    eexists _, _; (split; [reflexivity|]); repeat split; reflexivity.
Qed.

(** The effects of a render add paired alerts only, nothing for the map
    and no call of the geocoder, and keep the error message and the text. *)
Lemma afterRender_requests (o : TrackingOutcome) (t d : bool) (st0 : State)
  (out0 : list Effect) :
  exists st' out1,
    afterRender M o t d (st0, out0) = Normal (st', out0 ++ out1) /\
    errorMsg st' = errorMsg st0 /\ searchText st' = searchText st0 /\
    paired out1 /\ existsb isMapEffect out1 = false /\ geocodeCalls out1 = 0 /\
    existsb isNoDestinationDialog out1 = false.
Proof.
  unfold afterRender.
  assert (T : exists st1 out1,
    (if t then useEffect_tracking o st0 else (st0, [])) = (st1, out1) /\
    errorMsg st1 = errorMsg st0 /\ searchText st1 = searchText st0 /\
    paired out1 /\ existsb isMapEffect out1 = false /\ geocodeCalls out1 = 0 /\
    existsb isNoDestinationDialog out1 = false).
  { destruct t.
    - pose proof (useEffect_tracking_frame o st0) as (_ & _ & _ & _ & S & _).
      pose proof (useEffect_tracking_bound o st0) as (_ & _ & E).
      pose proof (useEffect_tracking_paired o st0) as (P & Mp & G & Nd).
      destruct (useEffect_tracking o st0) as [st1 out1]. simpl in *.
      exists st1, out1. repeat split; auto; apply P.
    - exists st0, []. repeat split; reflexivity. }
  destruct T as (st1 & out1 & -> & E & S & P & Mp & G & Nd).
  assert (D : exists st' out2,
    (if d then useEffect_distance M st1 else Normal (st1, [])) = Normal (st', out2) /\
    errorMsg st' = errorMsg st1 /\ searchText st' = searchText st1 /\
    paired out2 /\ existsb isMapEffect out2 = false /\ geocodeCalls out2 = 0 /\
    existsb isNoDestinationDialog out2 = false).
  { destruct d; [apply useEffect_distance_paired|].
    exists st1, []. repeat split; reflexivity. }
  destruct D as (st' & out2 & -> & E' & S' & P' & Mp' & G' & Nd').
  exists st', (out1 ++ out2). simpl. split; [reflexivity|].
  split; [congruence|]. split; [congruence|].
  split; [now apply paired_app|].
  split; [now rewrite existsb_app, Mp, Mp'|].
  split; [|now rewrite existsb_app, Nd, Nd'].
  unfold geocodeCalls in *. rewrite filter_app, length_app. lia.
Qed.

(** What the handler of an event requests, before the render. *)
Lemma step_requests (o : TrackingOutcome) (ev : Event) (st : State) :
  exists st' out,
    step M o ev st = Normal (st', out) /\ paired out /\
    (errorMsg st <> None -> errorMsg st' <> None /\ existsb isMapEffect out = false).
Proof.
  assert (A : forall t d st0 out0,
    paired out0 ->
    (errorMsg st <> None -> errorMsg st0 <> None /\ existsb isMapEffect out0 = false) ->
    exists st' out,
      afterRender M o t d (st0, out0) = Normal (st', out) /\ paired out /\
      (errorMsg st <> None -> errorMsg st' <> None /\ existsb isMapEffect out = false)).
  { intros t d st0 out0 P0 E0.
    destruct (afterRender_requests o t d st0 out0)
      as (st' & out1 & Eq & E & _ & P & Mp & _).
    exists st', (out0 ++ out1). split; [exact Eq|]. split; [now apply paired_app|].
    intros He. destruct (E0 He) as [E1 M1]. split; [congruence|].
    now rewrite existsb_app, M1, Mp. }
  assert (Fit : forall l c st0,
    paired (fitToCoordinates l c st0) /\
    (errorMsg st0 <> None -> existsb isMapEffect (fitToCoordinates l c st0) = false)).
  { intros l c st0. unfold fitToCoordinates, mapRef_current.
    destruct l; [|repeat split].
    destruct (errorMsg st0); simpl.
    - repeat split.
    - destruct (negb _); repeat split; intros H; now destruct H. }
  destruct ev as [[ |c| ]|c|c|text|r| | | ].
  - eexists _, _. split; [reflexivity|]. repeat split. simpl. discriminate.
  - apply A; [repeat split|]. intros He. split; [exact He|reflexivity].
  - eexists _, _. split; [reflexivity|]. repeat split; auto.
  - apply A; [repeat split|]. intros He. split; [exact He|reflexivity].
  - unfold step, handleMapPress. apply A; [apply Fit|].
    intros He. split; [exact He|]. now apply Fit.
  - eexists _, _. split; [reflexivity|]. repeat split; auto.
  - unfold step, handleSearch, handleSearch_settled.
    destruct (truthy_string (trim (searchText st))); cbn [negb andb].
    + destruct r as [[|g0 rest]|]; cbn [found].
      * eexists _, _. split; [reflexivity|]. repeat split; auto.
      * apply A.
        -- apply (paired_app [GeocodeAsync (searchText st)]); [repeat split|apply Fit].
        -- intros He. split; [exact He|]. simpl. now apply Fit.
      * eexists _, _. split; [reflexivity|]. repeat split; auto.
    + eexists _, _. split; [reflexivity|]. repeat split; auto.
  - apply A; [repeat split|]. intros He. split; [exact He|reflexivity].
  - unfold step, toggleTracking.
    destruct (negb (truthy (destination st))); apply A; repeat split; auto.
  - unfold step, centerOnLocation, mapRef_current.
    eexists _, _. split; [reflexivity|].
    destruct (location st); [|repeat split; auto].
    destruct (errorMsg st); simpl.
    + repeat split; auto.
    + destruct (negb _); repeat split; auto; now destruct H.
Qed.

Lemma run_requests (evs : list (TrackingOutcome * Event)) :
  forall st, exists st' out,
    run M evs st = Normal (st', out) /\ paired out /\
    (errorMsg st <> None -> errorMsg st' <> None /\ existsb isMapEffect out = false).
Proof.
  induction evs as [|[o ev] evs IH]; intros st.
  - exists st, []. repeat split; auto.
  - destruct (step_requests o ev st) as (st1 & out1 & E1 & P1 & M1).
    destruct (IH st1) as (st2 & out2 & E2 & P2 & M2).
    exists st2, (out1 ++ out2). simpl. rewrite E1. simpl. rewrite E2.
    split; [reflexivity|]. split; [now apply paired_app|].
    intros He. destruct (M1 He) as [He1 Mp1]. destruct (M2 He1) as [He2 Mp2].
    split; [exact He2|]. now rewrite existsb_app, Mp1, Mp2.
Qed.

End TrackingRequests.

(** Whatever the events and wherever the session starts, the tracking
    screen never throws, requests as many vibrations as proximity dialogs,
    and every proximity dialog it shows reports a distance of at most
    2 km. *)
Theorem tracking_alerts_paired_and_within_radius (M : MathObject)
  (evs : list (TrackingOutcome * HomeTracking.Event)) (st : HomeTracking.State) :
  exists st' out,
    HomeTracking.run M evs st = Normal (st', out) /\
    vibrations out = proximityMessages out /\
    forallb withinAlertRadius out = true.
Proof.
  destruct (run_requests M evs st) as (st' & out & E & [C W] & _).
  exists st', out. auto.
Qed.

(** Nothing clears the error message: once it is set the component renders
    the error view after every further event, and none of them requests
    anything of the map. *)
Theorem tracking_error_view_is_final (M : MathObject)
  (evs : list (TrackingOutcome * HomeTracking.Event)) (st : HomeTracking.State) :
  HomeTracking.errorMsg st <> None ->
  exists st' out,
    HomeTracking.run M evs st = Normal (st', out) /\
    HomeTracking.errorMsg st' <> None /\
    HomeTracking.mapRef_current st' = false /\
    existsb isMapEffect out = false.
Proof.
  intros He.
  destruct (run_requests M evs st) as (st' & out & E & _ & F).
  destruct (F He) as [He' Mp].
  exists st', out. repeat split; auto.
  unfold HomeTracking.mapRef_current.
  destruct (HomeTracking.errorMsg st'); [reflexivity|now destruct He'].
Qed.

Lemma tracking_error_view_is_final_witness :
  exists st' out,
    HomeTracking.run smallAngle
      [(Watching, HomeTracking.MapPress target);
       (Watching, HomeTracking.LocationUpdate at_1_1_km);
       (Watching, HomeTracking.CenterOnLocation)]
      (HomeTracking.useEffect_mount PermissionDenied HomeTracking.initialState) =
      Normal (st', out) /\
    HomeTracking.errorMsg st' <> None /\
    HomeTracking.mapRef_current st' = false /\
    existsb isMapEffect out = false.
Proof.
  apply (tracking_error_view_is_final smallAngle
           [(Watching, HomeTracking.MapPress target);
            (Watching, HomeTracking.LocationUpdate at_1_1_km);
            (Watching, HomeTracking.CenterOnLocation)]
           (HomeTracking.useEffect_mount PermissionDenied HomeTracking.initialState)).
  simpl. discriminate.
Defined.

(** Switching tracking on and off again, with a destination selected.
    When the provider grants the watch, the first toggle requests the
    background permission and the watch and holds the subscription; the
    second removes the subscription and leaves the state that was there
    before the first.  When the provider refuses or fails, the first
    toggle already ends in that state. *)
Theorem tracking_toggle_round_trip (M : MathObject) (o : TrackingOutcome)
  (st : HomeTracking.State) (d : Coordinate) :
  HomeTracking.destination st = Some d ->
  HomeTracking.isTracking st = false ->
  HomeTracking.locationSubscription st = false ->
  let on := HomeTracking.setLocationSubscription true
              (HomeTracking.setIsTracking true st) in
  HomeTracking.step M Watching HomeTracking.ToggleTracking st =
    Normal (on, [RequestBackgroundPermissions; WatchPositionAsync]) /\
  HomeTracking.step M o HomeTracking.ToggleTracking on =
    Normal (st, [RemoveSubscription]) /\
  (o <> Watching ->
   exists out,
     HomeTracking.step M o HomeTracking.ToggleTracking st = Normal (st, out) /\
     quiet out).
Proof.
  intros Hd Ht Hs on.
  assert (Same : HomeTracking.setIsTracking false
                   (HomeTracking.setIsTracking true st) = st).
  { destruct st; simpl in *; subst; reflexivity. }
  assert (Back : HomeTracking.setLocationSubscription false
                   (HomeTracking.setIsTracking false on) = st).
  { destruct st; simpl in *; subst; reflexivity. }
  assert (Start : forall o1,
    HomeTracking.step M o1 HomeTracking.ToggleTracking st =
    Normal (fst (HomeTracking.startLocationTracking o1
                   (HomeTracking.setIsTracking true st)),
            snd (HomeTracking.startLocationTracking o1
                   (HomeTracking.setIsTracking true st)))).
  { intros o1.
    unfold HomeTracking.step, HomeTracking.toggleTracking. rewrite Hd, Ht.
    cbn [truthy negb]. unfold HomeTracking.afterRender,
      HomeTracking.useEffect_tracking, HomeTracking.stopLocationTracking.
    cbn [HomeTracking.locationSubscription HomeTracking.setIsTracking
         HomeTracking.isTracking HomeTracking.destination].
    rewrite Hs.
    cbn [HomeTracking.locationSubscription HomeTracking.setIsTracking
         HomeTracking.isTracking HomeTracking.destination].
    rewrite Hd. cbn [truthy andb].
    destruct (HomeTracking.startLocationTracking o1 _) as [s1 out1].
    cbn. now rewrite app_nil_r. }
  split; [|split].
  - rewrite Start. reflexivity.
  - unfold HomeTracking.step, HomeTracking.toggleTracking.
    cbn [on HomeTracking.destination HomeTracking.setLocationSubscription
         HomeTracking.setIsTracking HomeTracking.isTracking]. rewrite Hd.
    cbn. now rewrite Back.
  - intros Ho. rewrite Start.
    destruct o; [| |now destruct Ho]; cbn; rewrite Same;
      eexists; (split; [reflexivity|]); split; reflexivity.
Qed.

Lemma tracking_toggle_round_trip_witness :
  let on := HomeTracking.setLocationSubscription true
              (HomeTracking.setIsTracking true selected) in
  HomeTracking.step smallAngle Watching HomeTracking.ToggleTracking selected =
    Normal (on, [RequestBackgroundPermissions; WatchPositionAsync]) /\
  HomeTracking.step smallAngle WatchFailed HomeTracking.ToggleTracking on =
    Normal (selected, [RemoveSubscription]) /\
  (WatchFailed <> Watching ->
   exists out,
     HomeTracking.step smallAngle WatchFailed HomeTracking.ToggleTracking selected =
       Normal (selected, out) /\
     quiet out).
Proof.
  apply (tracking_toggle_round_trip smallAngle WatchFailed selected target);
    reflexivity.
Defined.

(** Submitting a search calls the geocoder exactly once when the text is
    not blank, with the text as typed (not trimmed), and not at all when it
    is blank, whatever the answer; the text box keeps its text. *)
Theorem tracking_search_calls_provider_once (M : MathObject) (o : TrackingOutcome)
  (r : GeocodeResult) (st : HomeTracking.State) :
  exists st' out,
    HomeTracking.step M o (HomeTracking.SubmitSearch r) st = Normal (st', out) /\
    HomeTracking.searchText st' = HomeTracking.searchText st /\
    filter isGeocodeCall out =
      if blank (HomeTracking.searchText st) then []
      else [GeocodeAsync (HomeTracking.searchText st)].
Proof.
  unfold HomeTracking.step.
  set (t := truthy_string (trim (HomeTracking.searchText st)) && HomeTracking.found r).
  assert (H : exists st0 out0,
    HomeTracking.handleSearch r st = (st0, out0) /\
    HomeTracking.searchText st0 = HomeTracking.searchText st /\
    filter isGeocodeCall out0 =
      if blank (HomeTracking.searchText st) then []
      else [GeocodeAsync (HomeTracking.searchText st)]).
  { unfold HomeTracking.handleSearch, HomeTracking.handleSearch_settled.
    rewrite trim_truthy.
    destruct (blank (HomeTracking.searchText st)); cbn [negb].
    - eexists _, _. repeat split.
    - destruct r as [[|g0 rest]|]; eexists _, _; repeat split.
      unfold HomeTracking.fitToCoordinates.
      destruct (HomeTracking.location st); [|reflexivity].
      destruct (HomeTracking.mapRef_current _); reflexivity. }
  destruct H as (st0 & out0 & -> & S0 & G0).
  destruct (afterRender_requests M o t t st0 out0)
    as (st' & out1 & E & _ & S & _ & _ & G & _).
  exists st', (out0 ++ out1). split; [exact E|]. split; [congruence|].
  unfold geocodeCalls in G. apply length_zero_iff_nil in G.
  now rewrite filter_app, G, app_nil_r.
Qed.

(** ** The snapshot screen: sessions *)

Section HomeSessions.

Import Home.

Variable M : MathObject.

(** The distance effect reads [scoords] without testing it. *)
Lemma useEffect_distance_unsearched (st : State) :
  scoords st = None ->
  useEffect_distance M st =
  if truthy (location st) && truthy (mcoords st) then Throw TypeError else Normal [].
Proof.
  intros Hs. unfold useEffect_distance. rewrite Hs.
  destruct (location st), (mcoords st); reflexivity.
Qed.

Lemma step_unsearched (ev : Event) (st : State) :
  scoords st = None -> finds ev = false ->
  step M ev st = Throw TypeError \/
  exists st' out,
    step M ev st = Normal (st', out) /\ scoords st' = None /\ quiet out.
Proof.
  intros Hs Hf.
  destruct ev as [[ |c| ]|c|text|[[|g0 rest]|]]; try discriminate Hf;
    cbn [step];
    try (right; eexists _, _; repeat split; exact Hs);
    try (right; eexists _, _; repeat split; reflexivity).
  - rewrite useEffect_distance_unsearched by exact Hs.
    destruct (_ && _); [now left|].
    right. eexists _, _. repeat split. exact Hs.
  - rewrite useEffect_distance_unsearched by exact Hs.
    destruct (_ && _); [now left|].
    right. eexists _, _. repeat split. exact Hs.
Qed.

Lemma run_unsearched (evs : list Event) :
  forall st, scoords st = None -> existsb finds evs = false ->
  run M evs st = Throw TypeError \/
  exists st' out,
    run M evs st = Normal (st', out) /\ scoords st' = None /\ quiet out.
Proof.
  induction evs as [|ev evs IH]; intros st Hs Hf.
  - right. exists st, []. repeat split. exact Hs.
  - cbn [existsb] in Hf. apply orb_false_elim in Hf as [Hev Hf].
    cbn [run].
    destruct (step_unsearched ev st Hs Hev) as [E|(st1 & out1 & E & Hs1 & Q1)];
      rewrite E; [now left|].
    cbn [bind fst snd].
    destruct (IH st1 Hs1 Hf) as [E2|(st2 & out2 & E2 & Hs2 & Q2)];
      rewrite E2; [now left|].
    right. eexists _, _. split; [reflexivity|]. split; [exact Hs2|].
    now apply quiet_app.
Qed.

End HomeSessions.

(** In [Home.js], until a search has returned a place the screen cannot
    alert: a session without a successful search either requests no
    vibration and no alert message, or ends in the TypeError of the
    distance effect. *)
Theorem home_no_alert_before_search (M : MathObject) (evs : list Home.Event) :
  existsb finds evs = false ->
  Home.run M evs Home.initialState = Throw TypeError \/
  exists st' out,
    Home.run M evs Home.initialState = Normal (st', out) /\
    vibrations out = 0 /\ proximityMessages out = 0.
Proof.
  intros Hf.
  destruct (run_unsearched M evs Home.initialState eq_refl Hf)
    as [E|(st' & out & E & _ & Qv & Qp)]; [now left|].
  right. now exists st', out.
Qed.

Lemma home_no_alert_before_search_witness :
  Home.run smallAngle
    [Home.ChangeText kochi; Home.PressSearch (Fulfilled []); Home.MapPress target;
     Home.Mount (Fix at_1_1_km)]
    Home.initialState = Throw TypeError \/
  exists st' out,
    Home.run smallAngle
      [Home.ChangeText kochi; Home.PressSearch (Fulfilled []); Home.MapPress target;
       Home.Mount (Fix at_1_1_km)]
      Home.initialState = Normal (st', out) /\
    vibrations out = 0 /\ proximityMessages out = 0.
Proof.
  apply (home_no_alert_before_search smallAngle
           [Home.ChangeText kochi; Home.PressSearch (Fulfilled []);
            Home.MapPress target; Home.Mount (Fix at_1_1_km)]).
  reflexivity.
Defined.

(** In [Home.js], a search that returns no place forgets the searched
    destination, so that the next tap on the map, with the location known,
    ends in a TypeError, whatever was searched before. *)
Theorem home_empty_result_then_tap_throws (M : MathObject) (st : Home.State)
  (l c : Coordinate) :
  Home.location st = Some l ->
  Home.run M [Home.PressSearch (Fulfilled []); Home.MapPress c] st =
  Throw TypeError.
Proof.
  intros Hl. cbn [Home.run Home.step Home.geocode bind fst snd hd_error].
  rewrite useEffect_distance_unsearched by reflexivity.
  cbn [Home.handlecord Home.setMcoords Home.setScoords Home.location Home.mcoords].
  rewrite Hl. reflexivity.
Qed.

Lemma home_empty_result_then_tap_throws_witness :
  Home.run smallAngle [Home.PressSearch (Fulfilled []); Home.MapPress at_1_7_km]
    (Home.setScoords (Some target) (Home.setLocation (Some at_1_1_km) Home.initialState)) =
  Throw TypeError.
Proof.
  apply (home_empty_result_then_tap_throws smallAngle
           (Home.setScoords (Some target)
              (Home.setLocation (Some at_1_1_km) Home.initialState))
           at_1_1_km at_1_7_km).
  reflexivity.
Defined.

(** ** The distance under reflections *)

(** Mirroring both places in the equator, or both in the prime meridian,
    leaves [calculateDistance] bit for bit the same, on every engine whose
    [Math.cos] is an even function. *)
Theorem calculateDistance_mirror_invariant (M : MathObject) (a b : Coordinate) :
  (forall t, Math_cos M (- t)%float = Math_cos M t) ->
  calculateDistance M (Some (mirrorNS a)) (Some (mirrorNS b)) =
    calculateDistance M (Some a) (Some b) /\
  calculateDistance M (Some (mirrorEW a)) (Some (mirrorEW b)) =
    calculateDistance M (Some a) (Some b).
Proof.
  intros Heven. unfold calculateDistance, mirrorNS, mirrorEW, place. simpl.
  rewrite !IEEE.sub_opp_opp, !IEEE.mul_opp_l, !Heven.
  rewrite (angle_swap M (latitude b) (latitude a) Heven).
  rewrite (angle_swap M (longitude b) (longitude a) Heven).
  split; reflexivity.
Qed.

Lemma calculateDistance_mirror_invariant_witness :
  calculateDistance smallAngle (Some (mirrorNS at_1_1_km)) (Some (mirrorNS target)) =
    calculateDistance smallAngle (Some at_1_1_km) (Some target) /\
  calculateDistance smallAngle (Some (mirrorEW at_1_1_km)) (Some (mirrorEW target)) =
    calculateDistance smallAngle (Some at_1_1_km) (Some target).
Proof.
  apply (calculateDistance_mirror_invariant smallAngle at_1_1_km target).
  exact smallAngle_cos_even.
Defined.

(** ** The tracking screen: the view and the events it offers *)

Section TrackingViews.

Import HomeTracking TrackingView.

Variable M : MathObject.

(** The info card is rendered with a destination only. *)
Lemma offers_card (st : State) (ev : Event) :
  ev = ToggleTracking \/ ev = ClearDestination ->
  offers (render st) ev = true ->
  destination st <> None /\ distance st <> None /\ mapRef_current st = true.
Proof.
  intros Hev. unfold render, mapRef_current.
  destruct (errorMsg st); [destruct Hev as [-> | ->]; discriminate|].
  destruct (isLoading st && negb (truthy (location st)));
    [destruct Hev as [-> | ->]; discriminate|].
  destruct Hev as [-> | ->]; cbn;
    destruct (destination st), (distance st); try discriminate;
    repeat split; discriminate.
Qed.

(** An enabled event requests no "No Destination" dialog. *)
Lemma step_enabled (o : TrackingOutcome) (ev : Event) (st : State) :
  enabled st ev = true ->
  exists st' out,
    step M o ev st = Normal (st', out) /\
    existsb isNoDestinationDialog out = false.
Proof.
  intros He.
  assert (A : forall t d st0 out0,
    existsb isNoDestinationDialog out0 = false ->
    exists st' out,
      afterRender M o t d (st0, out0) = Normal (st', out) /\
      existsb isNoDestinationDialog out = false).
  { intros t d st0 out0 N0.
    destruct (afterRender_requests M o t d st0 out0)
      as (st' & out1 & Eq & _ & _ & _ & _ & _ & N1).
    exists st', (out0 ++ out1). split; [exact Eq|].
    now rewrite existsb_app, N0, N1. }
  assert (Fit : forall l c st0,
    existsb isNoDestinationDialog (fitToCoordinates l c st0) = false).
  { intros l c st0. unfold fitToCoordinates.
    destruct l; [|reflexivity]. now destruct (mapRef_current st0). }
  destruct ev as [[ |c| ]|c|c|text|r| | | ].
  - eexists _, _. split; reflexivity.
  - apply A. reflexivity.
  - eexists _, _. split; reflexivity.
  - apply A. reflexivity.
  - unfold step, handleMapPress. apply A, Fit.
  - eexists _, _. split; reflexivity.
  - unfold step, handleSearch, handleSearch_settled.
    destruct (truthy_string (trim (searchText st))); cbn [negb andb].
    + destruct r as [[|g0 rest]|]; cbn [found].
      * eexists _, _. split; reflexivity.
      * apply A. cbn [existsb isNoDestinationDialog orb]. apply Fit.
      * eexists _, _. split; reflexivity.
    + eexists _, _. split; reflexivity.
  - apply A. reflexivity.
  - destruct (offers_card st ToggleTracking (or_introl eq_refl) He) as (Hd & _).
    unfold step, toggleTracking.
    destruct (destination st); [|now destruct Hd]. cbn [truthy negb].
    apply A. reflexivity.
  - unfold step, centerOnLocation. eexists _, _. split; [reflexivity|].
    destruct (location st); [|reflexivity]. now destruct (mapRef_current st).
Qed.

Lemma run_driven (evs : list (TrackingOutcome * Event)) :
  forall st, driven M evs st = true ->
  exists st' out,
    run M evs st = Normal (st', out) /\
    existsb isNoDestinationDialog out = false.
Proof.
  induction evs as [|[o ev] evs IH]; intros st Hd.
  - exists st, []. split; reflexivity.
  - cbn [driven] in Hd. apply andb_prop in Hd as [He Hd].
    destruct (step_enabled o ev st He) as (st1 & out1 & E1 & N1).
    rewrite E1 in Hd.
    destruct (IH st1 Hd) as (st2 & out2 & E2 & N2).
    exists st2, (out1 ++ out2). cbn [run]. rewrite E1. cbn [bind fst snd].
    rewrite E2. cbn [bind fst snd]. split; [reflexivity|].
    now rewrite existsb_app, N1, N2.
Qed.

End TrackingViews.

(** In a session in which every event is one the rendered view offers (or
    a position delivered while the subscription is held, or the answer to
    the mount effect's position request), the "No Destination" dialog is
    never shown: the button that calls
    [toggleTracking] is rendered with a destination only, so the guard of
    [toggleTracking] never fires. *)
Theorem tracking_no_destination_dialog_unreachable (M : MathObject)
  (evs : list (TrackingOutcome * HomeTracking.Event)) (st : HomeTracking.State) :
  TrackingView.driven M evs st = true ->
  exists st' out,
    HomeTracking.run M evs st = Normal (st', out) /\
    existsb isNoDestinationDialog out = false.
Proof.
  intros Hd.
  destruct (run_driven M evs st Hd) as (st' & out & E & N).
  exists st', out. split; [exact E|exact N].
Qed.

Lemma tracking_no_destination_dialog_unreachable_witness :
  exists st' out,
    HomeTracking.run smallAngle ((Watching, HomeTracking.MapPress target) :: inbound)
      (HomeTracking.useEffect_mount (Fix at_3_3_km) HomeTracking.initialState) =
      Normal (st', out) /\
    existsb isNoDestinationDialog out = false.
Proof.
  apply (tracking_no_destination_dialog_unreachable smallAngle
           ((Watching, HomeTracking.MapPress target) :: inbound)
           (HomeTracking.useEffect_mount (Fix at_3_3_km) HomeTracking.initialState)).
  vm_compute. reflexivity.
Defined.

(** In every session of the tracking screen, the info card (the only place
    that offers "Start Tracking" and the clear button) is rendered exactly
    when the main view is and both the location and the destination are
    known, and it prints the current distance. *)
Theorem tracking_info_card_needs_both (M : MathObject)
  (evs : list (TrackingOutcome * HomeTracking.Event)) :
  exists st out,
    HomeTracking.run M evs HomeTracking.initialState = Normal (st, out) /\
    forall s, TrackingView.render st = TrackingView.MainView s ->
      TrackingView.infoCard s =
      match HomeTracking.location st, HomeTracking.destination st with
      | Some l, Some d =>
          Some {| TrackingView.shownDistance := distanceKm M l d;
                  TrackingView.stopLabel := HomeTracking.isTracking st |}
      | _, _ => None
      end.
Proof.
  destruct (run_consistent M evs _ (initialState_consistent M))
    as (st & out & E & (I1 & _) & _).
  exists st, out. split; [exact E|].
  intros s. unfold TrackingView.render.
  destruct (HomeTracking.errorMsg st); [discriminate|].
  destruct (_ && _); [discriminate|].
  intros [= <-]. cbn [TrackingView.infoCard].
  unfold distanceShown in I1. rewrite I1.
  destruct (HomeTracking.location st), (HomeTracking.destination st); reflexivity.
Qed.

(** A distance that is not a number requests no alert and leaves the alert
    flag as it is, whatever the flag; the destination marker then carries
    no description. *)
Theorem tracking_nan_distance_is_inert (M : MathObject) (st : HomeTracking.State)
  (l d : Coordinate) :
  HomeTracking.location st = Some l ->
  HomeTracking.destination st = Some d ->
  PrimFloat.is_nan (distanceKm M l d) = true ->
  HomeTracking.useEffect_distance M st =
    Normal (HomeTracking.setDistance (Some (distanceKm M l d)) st, []) /\
  TrackingView.description (Some (distanceKm M l d)) = TrackingView.Empty.
Proof.
  intros Hl Hd Hn.
  destruct (IEEE.is_nan_unordered (distanceKm M l d) 2 Hn) as (L & _ & _).
  destruct (IEEE.is_nan_unordered (distanceKm M l d) 2.5 Hn) as (_ & G & _).
  split.
  - rewrite (useEffect_distance_present M st l d Hl Hd). cbv zeta.
    unfold le, gt. now rewrite L, G.
  - unfold TrackingView.description, TrackingView.truthy_number.
    now rewrite Hn, andb_false_r.
Qed.

Lemma tracking_nan_distance_is_inert_witness :
  HomeTracking.useEffect_distance smallAngle
    (HomeTracking.setLocation (Some (place infinity 76.6183)) selected) =
    Normal (HomeTracking.setDistance
              (Some (distanceKm smallAngle (place infinity 76.6183) target))
              (HomeTracking.setLocation (Some (place infinity 76.6183)) selected),
            []) /\
  TrackingView.description
    (Some (distanceKm smallAngle (place infinity 76.6183) target)) =
  TrackingView.Empty.
Proof.
  apply (tracking_nan_distance_is_inert smallAngle
           (HomeTracking.setLocation (Some (place infinity 76.6183)) selected)
           (place infinity 76.6183) target);
    vm_compute; reflexivity.
Defined.
